(** * json_CSV_converter: a shallow embedding of the conversion core

    The development follows [json_CSV_converter.py].  Python values are an
    inductive type, dictionaries are insertion-ordered association lists
    (the order of keys decides the CSV header), exceptions are an explicit
    result type, and [print] is a list of emitted lines.

    The character-level CSV layer of the standard library ([csv.Sniffer],
    [csv.reader], [csv.writer]: dialect detection, quoting, line
    splitting) is not part of the converter.  It appears here through its
    interface only: the importer receives the rows of cells the reader
    yields, the exporter produces the rows of cells handed to the writer.
    Where a file written is read again, what the layer makes of it is a
    parameter, and a statement that needs the cells to come back as they
    were written says so in a hypothesis. *)

From Stdlib Require Import List String Ascii ZArith Bool Lia Arith.
From Stdlib Require Import DecimalString.
Import ListNotations.

Local Open Scope string_scope.
Local Open Scope list_scope.
Local Open Scope Z_scope.

Set Warnings "-register-all".

(** ** Text *)

Module Text.

(** [str.lower()] restricted to what the converter compares against: the
    letters [A]..[Z] are mapped to [a]..[z], every other character is
    kept.  (No character outside ASCII lowers to one of the letters of
    ['true'] or ['false'], so the comparisons below agree with Python's.) *)
Definition lower_char (c : ascii) : ascii :=
  let n := nat_of_ascii c in
  if ((65 <=? n)%nat && (n <=? 90)%nat)%bool then ascii_of_nat (n + 32) else c.

Fixpoint lower (s : string) : string :=
  match s with
  | EmptyString => EmptyString
  | String c rest => String (lower_char c) (lower rest)
  end.

(** [len(s)] *)
Definition len (s : string) : Z := Z.of_nat (String.length s).

(** [s[:stop]], Python slicing: a negative [stop] counts from the end. *)
Definition slice_to (s : string) (stop : Z) : string :=
  if stop <? 0
  then substring 0 (Z.to_nat (len s + stop)) s
  else substring 0 (Z.to_nat stop) s.

(** [x in xs] for a list of strings *)
Definition mem (x : string) (xs : list string) : bool :=
  existsb (String.eqb x) xs.

(** [s] ends with [suffix] *)
Definition ends_with (s suffix : string) : Prop :=
  exists prefix, s = (prefix ++ suffix)%string.

End Text.

(** ** Python values *)

Inductive exn : Type :=
| TypeError
| AttributeError
| IndexError
| KeyError
| FileNotFoundError
| RecursionError
| SystemError.

(** The outcome of a call: a returned value or a raised exception. *)
Inductive result (A : Type) : Type :=
| Return (a : A)
| Raise (e : exn).

Arguments Return {A} a.
Arguments Raise {A} e.

Definition bind {A B : Type} (r : result A) (f : A -> result B) : result B :=
  match r with
  | Return a => f a
  | Raise e => Raise e
  end.

Notation "x <- c1 ;; c2" := (bind c1 (fun x => c2))
  (at level 61, c1 at next level, right associativity).

Notation "' pat <- c1 ;; c2" :=
  (bind c1 (fun x => match x with pat => c2 end))
  (at level 61, pat pattern, c1 at next level, right associativity).

(** Hashable values, the keys of a [dict]. *)
Inductive key : Type :=
| KNone
| KBool (b : bool)
| KInt (z : Z)
| KStr (s : string).

(** The values the converter handles: [None], [bool], [int], [str],
    [list] and [dict].  (Floats are left out.)  A [dict] keeps its items
    in insertion order. *)
Inductive pyval : Type :=
| VNone
| VBool (b : bool)
| VInt (z : Z)
| VStr (s : string)
| VList (items : list pyval)
| VDict (items : list (key * pyval)).

Definition dict : Type := list (key * pyval).

(** ** [str2bool] (lines 12-31) *)

Definition str2bool (str : string) : pyval :=
  if (Text.lower str =? "true")%string then VBool true
  else if (Text.lower str =? "false")%string then VBool false
  else VNone.

(** ** [enforce_excel_cell_string_limit] (lines 252-267) *)

Definition enforce_excel_cell_string_limit (long_string : string) (limit : Z)
  : string :=
  let limit := if limit <=? 3 then 4 else limit in
  if Text.len long_string >? limit
  then (Text.slice_to long_string (limit - 3) ++ "...")%string
  else long_string.

(** ** Dictionaries *)

(** Key equality is Python's [==] on hashable values: [True == 1] and
    [False == 0], so these collide as dictionary keys. *)
Definition key_eqb (a b : key) : bool :=
  match a, b with
  | KNone, KNone => true
  | KBool x, KBool y => Bool.eqb x y
  | KInt x, KInt y => x =? y
  | KStr x, KStr y => (x =? y)%string
  | KBool x, KInt y | KInt y, KBool x => y =? (if x then 1 else 0)
  | _, _ => false
  end.

(** A key seen as a value (iterating a dict yields its keys). *)
Definition key_val (k : key) : pyval :=
  match k with
  | KNone => VNone
  | KBool b => VBool b
  | KInt z => VInt z
  | KStr s => VStr s
  end.

(** [hash(v)]: lists and dicts are unhashable. *)
Definition hashable (v : pyval) : result key :=
  match v with
  | VNone => Return KNone
  | VBool b => Return (KBool b)
  | VInt z => Return (KInt z)
  | VStr s => Return (KStr s)
  | VList _ | VDict _ => Raise TypeError
  end.

(** [d.get(k)] *)
Fixpoint dict_get (d : dict) (k : key) : option pyval :=
  match d with
  | [] => None
  | (k', v) :: rest => if key_eqb k' k then Some v else dict_get rest k
  end.

(** [d.get(k, default)] *)
Definition dict_get_default (d : dict) (k : key) (default : pyval) : pyval :=
  match dict_get d k with
  | Some v => v
  | None => default
  end.

(** [d[k] = v]: an existing key keeps its place (and its key object), a
    new key is appended. *)
Fixpoint dict_set (d : dict) (k : key) (v : pyval) : dict :=
  match d with
  | [] => [(k, v)]
  | (k', v') :: rest =>
      if key_eqb k' k then (k', v) :: rest else (k', v') :: dict_set rest k v
  end.

(** [dict(pairs)] and the literal [{k1: v1, k2: v2, ...}] *)
Definition dict_of (pairs : list (key * pyval)) : dict :=
  fold_left (fun d kv => dict_set d (fst kv) (snd kv)) pairs [].

(** The keys, in insertion order. *)
Definition keys (d : dict) : list key := map fst d.

(** The values, in insertion order. *)
Definition values (d : dict) : list pyval := map snd d.

(** No two items of the list have equal keys: the list is a dictionary. *)
Fixpoint dict_wf (d : dict) : bool :=
  match d with
  | [] => true
  | (k, _) :: rest =>
      negb (existsb (key_eqb k) (keys rest)) && dict_wf rest
  end.

(** ** Import (lines 112-176) *)

(** What the file system and the [csv] module hand to the importer. *)
Inductive csv_source : Type :=
| ZeroBytes                             (* os.stat(filepath).st_size == 0 *)
| Malformed                             (* sniff() or the reader raises *)
| Parsed (rows : list (list string)).   (* the rows csv.reader yields *)

(** One step of [csv.DictReader.__next__] with the defaults the importer
    leaves in place, [restkey=None] and [restval=None]:
    [d = dict(zip(fieldnames, row))], then the surplus of a long row goes
    under [restkey] as a list, and the fields a short row lacks are set
    to [restval]. *)
Definition dictreader_row (fieldnames : list key) (row : list string) : dict :=
  let d := dict_of (combine fieldnames (map VStr row)) in
  let lf := List.length fieldnames in
  let lr := List.length row in
  if (lf <? lr)%nat then dict_set d KNone (VList (map VStr (skipn lf row)))
  else if (lr <? lf)%nat then
    fold_left (fun d k => dict_set d k VNone) (skipn lr fieldnames) d
  else d.

(** [row == []] is skipped by the reader. *)
Definition nonblank (row : list string) : bool :=
  match row with
  | [] => false
  | _ :: _ => true
  end.

(** [list(csv.DictReader(f, fieldnames=headers, dialect=dialect))]: with
    no [headers] the first row read names the fields. *)
Definition DictReader (headers : option (list key)) (rows : list (list string))
  : list dict :=
  match headers with
  | Some fieldnames => map (dictreader_row fieldnames) (filter nonblank rows)
  | None =>
      match rows with
      | [] => []
      | first :: rest =>
          map (dictreader_row (map KStr first)) (filter nonblank rest)
      end
  end.

(** Lines 170-171, the body of the inner loop:
    [if not isinstance(v, list) and v.lower() in ['true', 'false']:
         record[k] = str2bool(v)].
    Only [str] has [lower]. *)
Definition normalize_item (record : dict) (k : key) (v : pyval) : result dict :=
  match v with
  | VList _ => Return record
  | VStr s =>
      if Text.mem (Text.lower s) ["true"; "false"]
      then Return (dict_set record k (str2bool s))
      else Return record
  | VNone | VBool _ | VInt _ | VDict _ => Raise AttributeError
  end.

(** Line 169, [for k,v in record.items()] over the items of [todo]. *)
Fixpoint normalize_items (todo : dict) (record : dict) : result dict :=
  match todo with
  | [] => Return record
  | (k, v) :: rest =>
      record' <- normalize_item record k v ;;
      normalize_items rest record'
  end.

Definition normalize_record (record : dict) : result dict :=
  normalize_items record record.

(** Line 168, [for record in data]. *)
Fixpoint normalize_records (data : list dict) : result (list dict) :=
  match data with
  | [] => Return []
  | record :: rest =>
      record' <- normalize_record record ;;
      rest' <- normalize_records rest ;;
      Return (record' :: rest')
  end.

(** Lines 173-174: [len(data)], which [None] does not have, and the
    collapse of a one-record table. *)
Definition collapse (data : option (list dict)) : result pyval :=
  match data with
  | None => Raise TypeError
  | Some [record] => Return (VDict record)
  | Some records => Return (VList (map VDict records))
  end.

(** [import_csv_from_disk(filepath, headers)]: the lines printed and the
    outcome. *)
Definition import_csv_from_disk (filepath : string) (f : csv_source)
    (headers : option (list key)) : list string * result pyval :=
  let '(printed, data) :=
    match f with
    | ZeroBytes => ([(filepath ++ " is empty.")%string], None)
    | Malformed => ([(filepath ++ " exists, but could not load it.")%string], None)
    | Parsed rows => ([], Some (DictReader headers rows))
    end in
  (printed,
   data <- match data with
           | None => Return None
           | Some records =>
               records' <- normalize_records records ;; Return (Some records')
           end ;;
   collapse data).

(** ** Export (lines 270-370) *)

Section Shaper.

(** [repr] of a [list] or a [dict].  The converter only writes that text
    out, or cuts it to length, so it stays a parameter. *)
Variable container_repr : pyval -> string.

(** [str(v)] *)
Definition py_str (v : pyval) : string :=
  match v with
  | VNone => "None"
  | VBool true => "True"
  | VBool false => "False"
  | VInt z => NilZero.string_of_int (Z.to_int z)
  | VStr s => s
  | VList _ | VDict _ => container_repr v
  end.

(** The text [csv.writer] puts in a cell: [None] is the empty string, a
    [str] is itself, anything else goes through [str]. *)
Definition written_cell (v : pyval) : string :=
  match v with
  | VNone => ""
  | _ => py_str v
  end.

(** Truth value, as in [not data]. *)
Definition truthy (v : pyval) : bool :=
  match v with
  | VNone => false
  | VBool b => b
  | VInt z => negb (z =? 0)
  | VStr s => negb (s =? "")%string
  | VList items => negb (Nat.eqb (List.length items) 0)
  | VDict items => negb (Nat.eqb (List.length items) 0)
  end.

(** [for x in v]: the elements of a list, the keys of a dict, the
    characters of a string. *)
Definition iterate (v : pyval) : result (list pyval) :=
  match v with
  | VList items => Return items
  | VDict items => Return (map key_val (keys items))
  | VStr s => Return (map (fun c => VStr (String c "")) (list_ascii_of_string s))
  | VNone | VBool _ | VInt _ => Raise TypeError
  end.

(** [copy.deepcopy(data)] (line 330).  Values of this model are immutable
    trees, so the independent copy is the same tree; what the copy means
    for the caller's objects is the subject of [Module Heap] below. *)
Definition deepcopy (data : pyval) : pyval := data.

(** Line 353, [{headers[0]:k, headers[1]:v}]. *)
Definition flat_row (headers : option (list pyval)) (k : key) (v : pyval)
  : result pyval :=
  match headers with
  | Some (h0 :: h1 :: _) =>
      k0 <- hashable h0 ;;
      k1 <- hashable h1 ;;
      Return (VDict (dict_of [(k0, key_val k); (k1, v)]))
  | Some _ => Raise IndexError
  | None => Raise TypeError
  end.

(** Lines 344-353, the loop that lays a flat dict out as a vertical
    table. *)
Fixpoint flat_loop (todo : dict) (count : Z) (headers : option (list pyval))
    (temp_data : list pyval) : result (option (list pyval) * list pyval) :=
  match todo with
  | [] => Return (headers, temp_data)
  | (k, v) :: rest =>
      if count =? 0
      then flat_loop rest (count + 1) (Some [key_val k; v]) temp_data
      else
        row <- flat_row headers k v ;;
        flat_loop rest count headers (temp_data ++ [row])%list
  end.

(** Lines 332-357: the header set and the rows when no [headers] were
    passed ([data] is the caller's value, [to_export_data] its copy). *)
Definition derive_headers (data to_export_data : pyval)
  : result (option (list pyval) * pyval) :=
  match to_export_data with
  | VDict items =>
      match items with
      | [] => Raise IndexError
      | (_, VDict first) :: _ =>
          Return (Some (map key_val (keys first)), VList (values items))
      | _ :: _ =>
          '(headers, temp_data) <- flat_loop items 0 None [] ;;
          Return (headers, VList temp_data)
      end
  | VList _ =>
      match data with
      | VList (first :: _) =>
          headers <- iterate first ;;
          Return (Some headers, to_export_data)
      | _ => Raise IndexError
      end
  | VNone | VBool _ | VInt _ | VStr _ => Return (None, to_export_data)
  end.

(** The file the exporter leaves behind, as the rows of cells given to
    [csv.writer]. *)
Record csv_file : Type := {
  file_path : string;
  file_delimiter : ascii;
  file_rows : list (list string)
}.

Fixpoint hash_all (vs : list pyval) : result (list key) :=
  match vs with
  | [] => Return []
  | v :: rest =>
      k <- hashable v ;;
      ks <- hash_all rest ;;
      Return (k :: ks)
  end.

(** [DictWriter._dict_to_list] with [extrasaction='ignore'] and
    [restval='']: [(rowdict.get(key, restval) for key in fieldnames)],
    consumed by [csv.writer.writerow]. *)
Definition dict_to_list (fieldnames : list key) (rowdict : pyval)
  : result (list string) :=
  match fieldnames with
  | [] => Return []
  | _ :: _ =>
      match rowdict with
      | VDict items =>
          Return (map (fun k => written_cell (dict_get_default items k (VStr "")))
                      fieldnames)
      | _ => Raise AttributeError
      end
  end.

(** [DictWriter.writeheader]: [writerow(dict(zip(fieldnames, fieldnames)))] *)
Definition writeheader (headers : option (list pyval))
  : result (list key * list string) :=
  match headers with
  | None => Raise TypeError
  | Some names =>
      fieldnames <- hash_all names ;;
      row <- dict_to_list fieldnames (VDict (dict_of (combine fieldnames names))) ;;
      Return (fieldnames, row)
  end.

(** Lines 367-369: every value of [item] becomes its trimmed text. *)
Fixpoint trim_items (todo : dict) (item : dict) : dict :=
  match todo with
  | [] => item
  | (key, val) :: rest =>
      trim_items rest
        (dict_set item key
           (VStr (enforce_excel_cell_string_limit (py_str val) 32750)))
  end.

Definition trim_item (item : pyval) : result pyval :=
  match item with
  | VDict items => Return (VDict (trim_items items items))
  | _ => Raise AttributeError
  end.

(** Lines 365-370, [for item in to_export_data]. *)
Fixpoint write_rows (fieldnames : list key) (trim_long_strings : bool)
    (todo : list pyval) : result (list (list string)) :=
  match todo with
  | [] => Return []
  | item :: rest =>
      item <- (if trim_long_strings then trim_item item else Return item) ;;
      row <- dict_to_list fieldnames item ;;
      rows <- write_rows fieldnames trim_long_strings rest ;;
      Return (row :: rows)
  end.

(** Lines 330-357: the copy, then the header set and the rows the writer
    will be given. *)
Definition shaped_table (data : pyval) (headers : option (list pyval))
  : result (option (list pyval) * pyval) :=
  let to_export_data := deepcopy data in
  match headers with
  | None => derive_headers data to_export_data
  | Some _ => Return (headers, to_export_data)
  end.

(** [export_csv_data_to_disk(filepath, data, delimiter, headers,
    trim_long_strings)]: the lines printed and the outcome; [Return None]
    is the early return that writes no file. *)
Definition export_csv_data_to_disk (filepath : string) (data : pyval)
    (delimiter : ascii) (headers : option (list pyval))
    (trim_long_strings : bool) : list string * result (option csv_file) :=
  if negb (truthy data) then (["Nothing to export."], Return None)
  else
    ([],
     '(headers, to_export_data) <- shaped_table data headers ;;
     '(fieldnames, header_row) <- writeheader headers ;;
     items <- iterate to_export_data ;;
     rows <- write_rows fieldnames trim_long_strings items ;;
     Return (Some {| file_path := filepath;
                     file_delimiter := delimiter;
                     file_rows := header_row :: rows |})).

(** Export followed by import of the file just written.  Between the two
    stands the [csv] module: [csv.writer] turns the rows of cells into
    text under the file's delimiter, quoting the cells that need it, and
    on the way back [os.stat], [csv.Sniffer().sniff] on the first 4096
    characters and the reader make a [csv_source] of that text.  [reread]
    is that passage, a function of the file written; the importer works
    on what it yields, which need not be the cells written. *)
Definition export_then_import (reread : csv_file -> csv_source)
    (filepath : string) (data : pyval) (delimiter : ascii) : result pyval :=
  file <- snd (export_csv_data_to_disk filepath data delimiter None false) ;;
  match file with
  | None => Raise FileNotFoundError
  | Some file =>
      snd (import_csv_from_disk (file_path file) (reread file) None)
  end.

End Shaper.

(** ** The exporter on the caller's objects

    Lists and dicts are objects of a store and are reached through
    references, so that two names can share one object and a write
    through one is seen through the other.  This is the level at which
    [copy.deepcopy] and the in-place [item[key] = ...] of the trimming
    loop mean something. *)

Module Heap.

Definition loc : Type := nat.

(** A value: an immutable scalar, or a reference to a list or dict. *)
Inductive val : Type :=
| None_
| Bool (b : bool)
| Int (z : Z)
| Str (s : string)
| Ref (l : loc).

Inductive obj : Type :=
| List (items : list val)
| Dict (items : list (key * val)).

(** The store: the object at address [l] is the [l]-th one; a new object
    gets the next address. *)
Definition heap : Type := list obj.

(** Stateful, fallible computations. *)
Definition M (A : Type) : Type := heap -> heap * result A.

Definition ret {A : Type} (a : A) : M A := fun h => (h, Return a).

Definition raise {A : Type} (e : exn) : M A := fun h => (h, Raise e).

Definition mbind {A B : Type} (m : M A) (f : A -> M B) : M B :=
  fun h =>
    match m h with
    | (h', Return a) => f a h'
    | (h', Raise e) => (h', Raise e)
    end.

Notation "x <~ c1 ;; c2" := (mbind c1 (fun x => c2))
  (at level 61, c1 at next level, right associativity).

Notation "' pat <~ c1 ;; c2" :=
  (mbind c1 (fun x => match x with pat => c2 end))
  (at level 61, pat pattern, c1 at next level, right associativity).

(** Reading the object behind a reference.  A store built by Python has
    no dangling reference; one is answered with [SystemError]. *)
Definition read (l : loc) : M obj :=
  fun h =>
    match nth_error h l with
    | Some o => (h, Return o)
    | None => (h, Raise SystemError)
    end.

Definition alloc (o : obj) : M loc :=
  fun h => ((h ++ [o])%list, Return (List.length h)).

Fixpoint update (h : heap) (l : loc) (o : obj) : heap :=
  match h, l with
  | [], _ => []
  | _ :: rest, O => o :: rest
  | o' :: rest, S l' => o' :: update rest l' o
  end.

Definition write (l : loc) (o : obj) : M unit :=
  fun h => (update h l o, Return tt).

(** [d[k] = v] on dict items whose values are references or scalars. *)
Fixpoint items_set (d : list (key * val)) (k : key) (v : val)
  : list (key * val) :=
  match d with
  | [] => [(k, v)]
  | (k', v') :: rest =>
      if key_eqb k' k then (k', v) :: rest else (k', v') :: items_set rest k v
  end.

Fixpoint items_get (d : list (key * val)) (k : key) : option val :=
  match d with
  | [] => None
  | (k', v) :: rest => if key_eqb k' k then Some v else items_get rest k
  end.

Definition of_key (k : key) : val :=
  match k with
  | KNone => None_
  | KBool b => Bool b
  | KInt z => Int z
  | KStr s => Str s
  end.

Definition hash (v : val) : result key :=
  match v with
  | None_ => Return KNone
  | Bool b => Return (KBool b)
  | Int z => Return (KInt z)
  | Str s => Return (KStr s)
  | Ref _ => Raise TypeError
  end.

Fixpoint memo_get (memo : list (loc * loc)) (l : loc) : option loc :=
  match memo with
  | [] => None
  | (x, y) :: rest => if Nat.eqb x l then Some y else memo_get rest l
  end.

(** [y.append(a)] for the list at [y], [y[k] = a] for the dict at [y]. *)
Definition append_at (y : loc) (a : val) : M unit :=
  o <~ read y ;;
  match o with
  | List items => write y (List (items ++ [a]))
  | Dict _ => raise AttributeError
  end.

Definition setitem_at (y : loc) (k : key) (a : val) : M unit :=
  o <~ read y ;;
  match o with
  | Dict items => write y (Dict (items_set items k a))
  | List _ => raise TypeError
  end.

(** [_deepcopy_list]: [for a in x: y.append(deepcopy(a, memo))] *)
Fixpoint fill_list (copy : list (loc * loc) -> val -> M (list (loc * loc) * val))
    (y : loc) (todo : list val) (memo : list (loc * loc))
  : M (list (loc * loc) * val) :=
  match todo with
  | [] => ret (memo, Ref y)
  | a :: rest =>
      '(memo, a') <~ copy memo a ;;
      _ <~ append_at y a' ;;
      fill_list copy y rest memo
  end.

(** [_deepcopy_dict]: [for key, value in x.items():
    y[deepcopy(key, memo)] = deepcopy(value, memo)]; a key is hashable,
    hence a scalar, and is its own copy. *)
Fixpoint fill_dict (copy : list (loc * loc) -> val -> M (list (loc * loc) * val))
    (y : loc) (todo : list (key * val)) (memo : list (loc * loc))
  : M (list (loc * loc) * val) :=
  match todo with
  | [] => ret (memo, Ref y)
  | (k, a) :: rest =>
      '(memo, a') <~ copy memo a ;;
      _ <~ setitem_at y k a' ;;
      fill_dict copy y rest memo
  end.

(** [copy.deepcopy(x, memo)]: a scalar is returned as it is; a list or
    dict already copied is answered from [memo]; otherwise the empty copy
    is created and entered in [memo] first, then filled item by item.
    [depth] is the number of nested calls the interpreter still allows
    before [RecursionError]. *)
Fixpoint deepcopy (depth : nat) (memo : list (loc * loc)) (x : val)
  : M (list (loc * loc) * val) :=
  match x with
  | None_ | Bool _ | Int _ | Str _ => ret (memo, x)
  | Ref l =>
      match memo_get memo l with
      | Some y => ret (memo, Ref y)
      | None =>
          match depth with
          | O => raise RecursionError
          | S depth' =>
              o <~ read l ;;
              match o with
              | List items =>
                  y <~ alloc (List []) ;;
                  fill_list (deepcopy depth') y items ((l, y) :: memo)
              | Dict items =>
                  y <~ alloc (Dict []) ;;
                  fill_dict (deepcopy depth') y items ((l, y) :: memo)
              end
          end
      end
  end.

(** The tree a value stands for in a store, down to [depth] levels. *)
Fixpoint reify (depth : nat) (h : heap) (v : val) : option pyval :=
  match v with
  | None_ => Some VNone
  | Bool b => Some (VBool b)
  | Int z => Some (VInt z)
  | Str s => Some (VStr s)
  | Ref l =>
      match depth with
      | O => None
      | S depth' =>
          match nth_error h l with
          | None => None
          | Some (List items) =>
              option_map VList
                ((fix all (vs : list val) : option (list pyval) :=
                    match vs with
                    | [] => Some []
                    | v :: rest =>
                        match reify depth' h v, all rest with
                        | Some t, Some ts => Some (t :: ts)
                        | _, _ => None
                        end
                    end) items)
          | Some (Dict items) =>
              option_map VDict
                ((fix all (kvs : list (key * val)) : option (list (key * pyval)) :=
                    match kvs with
                    | [] => Some []
                    | (k, v) :: rest =>
                        match reify depth' h v, all rest with
                        | Some t, Some ts => Some ((k, t) :: ts)
                        | _, _ => None
                        end
                    end) items)
          end
      end
  end.

Section Shaper.

(** [repr] of the list or dict behind a reference, a parameter as above. *)
Variable container_repr : heap -> val -> string.

Definition py_str (h : heap) (v : val) : string :=
  match v with
  | None_ => "None"
  | Bool true => "True"
  | Bool false => "False"
  | Int z => NilZero.string_of_int (Z.to_int z)
  | Str s => s
  | Ref _ => container_repr h v
  end.

Definition written_cell (h : heap) (v : val) : string :=
  match v with
  | None_ => ""
  | _ => py_str h v
  end.

Definition truthy (v : val) : M bool :=
  match v with
  | None_ => ret false
  | Bool b => ret b
  | Int z => ret (negb (z =? 0))
  | Str s => ret (negb (s =? "")%string)
  | Ref l =>
      o <~ read l ;;
      match o with
      | List items => ret (negb (Nat.eqb (List.length items) 0))
      | Dict items => ret (negb (Nat.eqb (List.length items) 0))
      end
  end.

Definition iterate (v : val) : M (list val) :=
  match v with
  | Ref l =>
      o <~ read l ;;
      match o with
      | List items => ret items
      | Dict items => ret (map of_key (map fst items))
      end
  | Str s => ret (map (fun c => Str (String c "")) (list_ascii_of_string s))
  | None_ | Bool _ | Int _ => raise TypeError
  end.

(** [isinstance(v, dict)] *)
Definition is_dict (v : val) : M bool :=
  match v with
  | Ref l =>
      o <~ read l ;;
      match o with
      | Dict _ => ret true
      | List _ => ret false
      end
  | _ => ret false
  end.

(** [v[0]] *)
Definition getitem0 (v : val) : M val :=
  match v with
  | Ref l =>
      o <~ read l ;;
      match o with
      | List (first :: _) => ret first
      | List [] => raise IndexError
      | Dict items =>
          match items_get items (KInt 0) with
          | Some x => ret x
          | None => raise KeyError
          end
      end
  | Str (String c _) => ret (Str (String c ""))
  | Str EmptyString => raise IndexError
  | None_ | Bool _ | Int _ => raise TypeError
  end.

(** Line 353: a new dict [{headers[0]:k, headers[1]:v}]. *)
Definition flat_row (headers : option (list val)) (k : key) (v : val) : M val :=
  match headers with
  | Some (h0 :: h1 :: _) =>
      match hash h0, hash h1 with
      | Return k0, Return k1 =>
          l <~ alloc (Dict (items_set (items_set [] k0 (of_key k)) k1 v)) ;;
          ret (Ref l)
      | Raise e, _ => raise e
      | _, Raise e => raise e
      end
  | Some _ => raise IndexError
  | None => raise TypeError
  end.

(** Lines 346-353, appending to the list [temp_data]. *)
Fixpoint flat_loop (todo : list (key * val)) (count : Z)
    (headers : option (list val)) (temp_data : loc) : M (option (list val)) :=
  match todo with
  | [] => ret headers
  | (k, v) :: rest =>
      if count =? 0
      then flat_loop rest (count + 1) (Some [of_key k; v]) temp_data
      else
        row <~ flat_row headers k v ;;
        _ <~ append_at temp_data row ;;
        flat_loop rest count headers temp_data
  end.

(** Lines 332-357.  The header set is only read afterwards, so it is kept
    as the sequence of its elements. *)
Definition derive_headers (data to_export_data : val)
  : M (option (list val) * val) :=
  match to_export_data with
  | Ref l =>
      o <~ read l ;;
      match o with
      | Dict [] => raise IndexError
      | Dict (((_, v) :: _) as items) =>
          nested <~ is_dict v ;;
          if nested : bool then
            headers <~ iterate v ;;
            rows <~ alloc (List (map snd items)) ;;
            ret (Some headers, Ref rows)
          else
            temp_data <~ alloc (List []) ;;
            headers <~ flat_loop items 0 None temp_data ;;
            ret (headers, Ref temp_data)
      | List _ =>
          first <~ getitem0 data ;;
          headers <~ iterate first ;;
          ret (Some headers, to_export_data)
      end
  | None_ | Bool _ | Int _ | Str _ => ret (None, to_export_data)
  end.

Fixpoint hash_all (vs : list val) : result (list key) :=
  match vs with
  | [] => Return []
  | v :: rest =>
      k <- hash v ;;
      ks <- hash_all rest ;;
      Return (k :: ks)
  end.

Definition cells_of (h : heap) (fieldnames : list key) (items : list (key * val))
  : list string :=
  map (fun k =>
         written_cell h
           (match items_get items k with Some v => v | None => Str "" end))
      fieldnames.

Definition dict_to_list (fieldnames : list key) (rowdict : val)
  : M (list string) :=
  match fieldnames with
  | [] => ret []
  | _ :: _ =>
      match rowdict with
      | Ref l =>
          o <~ read l ;;
          match o with
          | Dict items => fun h => (h, Return (cells_of h fieldnames items))
          | List _ => raise AttributeError
          end
      | _ => raise AttributeError
      end
  end.

Definition writeheader (headers : option (list val))
  : M (list key * list string) :=
  match headers with
  | None => raise TypeError
  | Some names =>
      match hash_all names with
      | Raise e => raise e
      | Return fieldnames =>
          fun h =>
            (h, Return (fieldnames,
                        cells_of h fieldnames
                          (fold_left (fun d kv => items_set d (fst kv) (snd kv))
                                     (combine fieldnames names) [])))
      end
  end.

(** Line 369, [item[key] = enforce_excel_cell_string_limit(str(val), 32750)],
    a write into the object [item] refers to. *)
Fixpoint trim_loop (item : loc) (todo : list (key * val)) : M unit :=
  match todo with
  | [] => ret tt
  | (key, val) :: rest =>
      _ <~ (fun h =>
              setitem_at item key
                (Str (enforce_excel_cell_string_limit (py_str h val) 32750)) h) ;;
      trim_loop item rest
  end.

Definition trim_item (item : val) : M unit :=
  match item with
  | Ref l =>
      o <~ read l ;;
      match o with
      | Dict items => trim_loop l items
      | List _ => raise AttributeError
      end
  | _ => raise AttributeError
  end.

Fixpoint write_rows (fieldnames : list key) (trim_long_strings : bool)
    (todo : list val) : M (list (list string)) :=
  match todo with
  | [] => ret []
  | item :: rest =>
      _ <~ (if trim_long_strings then trim_item item else ret tt) ;;
      row <~ dict_to_list fieldnames item ;;
      rows <~ write_rows fieldnames trim_long_strings rest ;;
      ret (row :: rows)
  end.

(** [export_csv_data_to_disk] run on a store: the store it leaves, and
    the lines printed with the file written (or the exception). *)
Definition export_csv_data_to_disk (depth : nat) (filepath : string)
    (data : val) (delimiter : ascii) (headers : option (list val))
    (trim_long_strings : bool) : M (list string * option csv_file) :=
  nonempty <~ truthy data ;;
  if negb nonempty then ret (["Nothing to export."], None)
  else
    '(_, to_export_data) <~ deepcopy depth [] data ;;
    '(headers, to_export_data) <~
       match headers with
       | None => derive_headers data to_export_data
       | Some _ => ret (headers, to_export_data)
       end ;;
    '(fieldnames, header_row) <~ writeheader headers ;;
    items <~ iterate to_export_data ;;
    rows <~ write_rows fieldnames trim_long_strings items ;;
    ret ([], Some {| file_path := filepath;
                     file_delimiter := delimiter;
                     file_rows := header_row :: rows |}).

End Shaper.

(** *** Vocabulary of the frame property *)

(** Relative to the number [n] of objects the store held when the export
    began: a value is new when it is a scalar or refers to an object
    created since, an object is new when all it holds is. *)
Definition new_val (n : nat) (v : val) : Prop :=
  match v with
  | Ref l => (n <= l)%nat
  | None_ | Bool _ | Int _ | Str _ => True
  end.

Definition new_obj (n : nat) (o : obj) : Prop :=
  match o with
  | List items => Forall (new_val n) items
  | Dict items => Forall (fun kv => new_val n (snd kv)) items
  end.

(** The objects created since hold new values only. *)
Definition closed_above (n : nat) (h : heap) : Prop :=
  (n <= List.length h)%nat /\
  forall (l : loc) (o : obj),
    (n <= l)%nat -> nth_error h l = Some o -> new_obj n o.

(** The first [n] objects are what they were. *)
Definition same_below (n : nat) (h h' : heap) : Prop :=
  forall l : loc, (l < n)%nat -> nth_error h' l = nth_error h l.

(** [m] leaves the first [n] objects alone, keeps the later ones closed,
    and returns a result satisfying [Q]. *)
Definition keeps {A : Type} (n : nat) (m : M A) (Q : A -> Prop) : Prop :=
  forall h : heap,
    closed_above n h ->
    closed_above n (fst (m h)) /\
    same_below n h (fst (m h)) /\
    match snd (m h) with
    | Return a => Q a
    | Raise _ => True
    end.

Definition new_memo (n : nat) (memo : list (loc * loc)) : Prop :=
  Forall (fun p => (n <= snd p)%nat) memo.

Definition copied (n : nat) (r : list (loc * loc) * val) : Prop :=
  new_memo n (fst r) /\ new_val n (snd r).

(** A [repr] that shows nothing of a container, for concrete runs. *)
Definition opaque_repr (h : heap) (v : val) : string := "...".

End Heap.

(** ** Dispatch on the file type, and conversion
       (lines 34-109, 179-249, 373-387) *)

(** [Path(filepath).suffix.casefold()] as the dispatchers see it: equal to
    ['.json'], equal to ['.csv'], or neither. *)
Inductive extension : Type :=
| DotJson
| DotCsv
| DotOther.

(** What [simplejson.load] makes of the file. *)
Inductive json_source : Type :=
| JsonZeroBytes                 (* os.stat(filepath).st_size == 0 *)
| JsonInvalid                   (* simplejson.load raises *)
| JsonParsed (v : pyval).       (* the decoded document *)

(** What is at the import path. *)
Record source_file : Type := {
  src_exists : bool;            (* Path(filepath).exists() *)
  src_json : json_source;
  src_csv : csv_source
}.

(** [import_json_from_disk(filepath)] (lines 77-109) *)
Definition import_json_from_disk (filepath : string) (f : json_source)
  : list string * result pyval :=
  match f with
  | JsonZeroBytes => ([(filepath ++ " is empty.")%string], Return VNone)
  | JsonInvalid =>
      ([(filepath ++ " contains invalid JSON data.")%string], Return VNone)
  | JsonParsed v => ([], Return v)
  end.

(** [import_data_from_disk(filepath, headers)] (lines 34-74) *)
Definition import_data_from_disk (filepath : string) (suffix : extension)
    (f : source_file) (headers : option (list key))
  : list string * result pyval :=
  if src_exists f then
    match suffix with
    | DotJson => import_json_from_disk filepath (src_json f)
    | DotCsv => import_csv_from_disk filepath (src_csv f) headers
    | DotOther =>
        (["Data can only be imported from .json and .csv formats."],
         Return VNone)
    end
  else ([("Path " ++ filepath ++ " could not be found.")%string], Return VNone).

(** How a call that may also leave through [sys.exit] ends. *)
Inductive outcome (A : Type) : Type :=
| Done (a : A)
| Raised (e : exn)
| Exited (message : string).

Arguments Done {A} a.
Arguments Raised {A} e.
Arguments Exited {A} message.

Definition outcome_of {A : Type} (r : result A) : outcome A :=
  match r with
  | Return a => Done a
  | Raise e => Raised e
  end.

(** What an export leaves on disk: the CSV file, or the JSON file with
    the value handed to [simplejson.dump] and whether its directory had
    to be created first. *)
Inductive written : Type :=
| WroteCsv (file : csv_file)
| WroteJson (path : string) (made_dir : bool) (content : pyval).

(** [export_json_data_to_disk(filepath, data)] (lines 215-249);
    [dir_exists] is [Path(filepath).parents[0].exists()]. *)
Definition export_json_data_to_disk (filepath : string) (dir_exists : bool)
    (data : pyval) : list string * result (option written) :=
  match data with
  | VNone => (["Nothing to export."], Return None)
  | _ => ([], Return (Some (WroteJson filepath (negb dir_exists) data)))
  end.

Section Converter.

Variable container_repr : pyval -> string.

(** [export_csv_data_to_disk] with the directory of the target taken
    into account: the function never creates it, and [open] at line 360,
    reached once the rows are shaped, raises when it is missing. *)
Definition export_csv_into (dir_exists : bool) (filepath : string)
    (data : pyval) (delimiter : ascii) (headers : option (list pyval))
    (trim_long_strings : bool) : list string * result (option written) :=
  if negb (truthy data) then (["Nothing to export."], Return None)
  else
    match shaped_table data headers with
    | Raise e => ([], Raise e)
    | Return _ =>
        if dir_exists then
          let '(printed, r) :=
            export_csv_data_to_disk container_repr filepath data delimiter
              headers trim_long_strings in
          (printed, file <- r ;; Return (option_map WroteCsv file))
        else ([], Raise FileNotFoundError)
    end.

(** [export_data_to_disk(filepath, data, delimiter, headers,
    trim_long_strings)] (lines 179-212) *)
Definition export_data_to_disk (filepath : string) (suffix : extension)
    (dir_exists : bool) (data : pyval) (delimiter : ascii)
    (headers : option (list pyval)) (trim_long_strings : bool)
  : list string * outcome (option written) :=
  match suffix with
  | DotJson =>
      let '(printed, r) := export_json_data_to_disk filepath dir_exists data in
      (printed, outcome_of r)
  | DotCsv =>
      let '(printed, r) :=
        export_csv_into dir_exists filepath data delimiter headers
          trim_long_strings in
      (printed, outcome_of r)
  | DotOther =>
      ([], Exited "Exports can only be made to .json and .csv formats.")
  end.

(** [convert_file(import_path, export_path, headers, delimiter,
    trim_long_string)] (lines 373-387): the same [headers] go to the
    import and to the export. *)
Definition convert_file (import_path : string) (import_suffix : extension)
    (f : source_file) (export_path : string) (export_suffix : extension)
    (dir_exists : bool) (headers : option (list key)) (delimiter : ascii)
    (trim_long_string : bool) : list string * outcome (option written) :=
  let '(printed, imported) :=
    import_data_from_disk import_path import_suffix f headers in
  match imported with
  | Raise e => (printed, Raised e)
  | Return imported_data =>
      let '(printed', r) :=
        export_data_to_disk export_path export_suffix dir_exists imported_data
          delimiter (option_map (map key_val) headers) trim_long_string in
      (printed ++ printed', r)
  end.

End Converter.

(** ** Vocabulary of the statements *)

(** What the normalizer makes of one value: text that reads [true] or
    [false] in any letter case becomes the boolean, anything else stays. *)
Definition coerce (v : pyval) : pyval :=
  match v with
  | VStr s =>
      if (Text.lower s =? "true")%string then VBool true
      else if (Text.lower s =? "false")%string then VBool false
      else VStr s
  | _ => v
  end.

Definition coerce_item (kv : key * pyval) : key * pyval :=
  (fst kv, coerce (snd kv)).

(** The values the normalizer can look at without raising: text, and the
    list of surplus cells. *)
Definition lowerable (v : pyval) : bool :=
  match v with
  | VStr _ | VList _ => true
  | VNone | VBool _ | VInt _ | VDict _ => false
  end.

Definition all_lowerable (record : dict) : bool :=
  forallb lowerable (values record).

(** The field names and the data rows of an import: without [headers]
    the first row read gives the names. *)
Definition field_names (headers : option (list key))
    (rows : list (list string)) : list key :=
  match headers with
  | Some fieldnames => fieldnames
  | None =>
      match rows with
      | [] => []
      | first :: _ => map KStr first
      end
  end.

Definition data_rows (headers : option (list key))
    (rows : list (list string)) : list (list string) :=
  match headers with
  | Some _ => rows
  | None => tl rows
  end.

(** A normalized cell against the cell read: text reading [true] or
    [false] in any letter case has become the boolean, other text is the
    same text. *)
Definition cell_normalized (read normalized : pyval) : Prop :=
  forall s : string,
    read = VStr s ->
    (Text.lower s = "true" -> normalized = VBool true) /\
    (Text.lower s = "false" -> normalized = VBool false) /\
    (Text.lower s <> "true" -> Text.lower s <> "false" -> normalized = VStr s).

(** Same keys in the same order, every cell normalized. *)
Definition record_normalized (read normalized : dict) : Prop :=
  Forall2 (fun a b => fst b = fst a /\ cell_normalized (snd a) (snd b))
          read normalized.

(** The records of an import result, whichever of its two forms it has. *)
Definition records_of (result : pyval) : list dict :=
  match result with
  | VDict record => [record]
  | VList items =>
      flat_map (fun v => match v with VDict r => [r] | _ => [] end) items
  | _ => []
  end.

(** A scalar: not a list, not a dict. *)
Definition scalar (v : pyval) : bool :=
  match v with
  | VList _ | VDict _ => false
  | VNone | VBool _ | VInt _ | VStr _ => true
  end.

(** The row [{first_header: key, second_header: value}], a dict literal. *)
Definition vertical_row (first_header second_header : key) (kv : key * pyval)
  : pyval :=
  VDict (dict_of [(first_header, key_val (fst kv)); (second_header, snd kv)]).

(** The cells written for one mapping under the header [names]. *)
Definition written_cells (container_repr : pyval -> string)
    (names : list string) (original : dict) : list string :=
  map (fun name =>
         written_cell container_repr
           (dict_get_default original (KStr name) (VStr "")))
      names.

(** What comes back for one exported mapping: under each header name, the
    text the writer put in the cell (the empty string for [None] and for
    a missing field), normalized by the importer. *)
Definition reimported_record (container_repr : pyval -> string)
    (names : list string) (original : dict) : dict :=
  map (fun name =>
         (KStr name,
          coerce (VStr (written_cell container_repr
                          (dict_get_default original (KStr name) (VStr ""))))))
      names.

(** A [repr] that shows nothing of a container, for concrete runs. *)
Definition opaque_repr (v : pyval) : string := "...".

(** The [csv] module makes of [file] the rows of cells its writer was
    given. *)
Definition reads_back (reread : csv_file -> csv_source) (file : csv_file)
  : Prop :=
  reread file = Parsed (file_rows file).

(** The passage through the [csv] module that loses nothing. *)
Definition cells_read_back (file : csv_file) : csv_source :=
  Parsed (file_rows file).

(** The values an import can hold: text, the booleans of the normalizer,
    and the list of surplus cells. *)
Definition imported_value (v : pyval) : bool :=
  match v with
  | VStr _ | VBool _ | VList _ => true
  | VNone | VInt _ | VDict _ => false
  end.

(** Field names no two of which are equal as dictionary keys. *)
Definition distinct_keys (ks : list key) : bool :=
  dict_wf (map (fun k => (k, VNone)) ks).

(** The row the writer is given for [item]: the item itself, or the item
    after the trimming loop. *)
Definition row_dict (container_repr : pyval -> string)
    (trim_long_strings : bool) (item : dict) : dict :=
  if trim_long_strings then trim_items container_repr item item else item.

(** The cells written for a mapping under the field names [ks]: the text
    of the value found under each name, the empty string when there is
    none. *)
Definition row_cells (container_repr : pyval -> string) (ks : list key)
    (item : dict) : list string :=
  map (fun k =>
         written_cell container_repr (dict_get_default item k (VStr "")))
      ks.

(** The header line for the field names [ks]. *)
Definition header_cells (container_repr : pyval -> string) (ks : list key)
  : list string :=
  map (fun k => written_cell container_repr (key_val k)) ks.

(** [isinstance(v, dict)] *)
Definition is_mapping (v : pyval) : bool :=
  match v with
  | VDict _ => true
  | _ => false
  end.

(** The rows of a file with its blank data rows taken out. *)
Definition without_blank_rows (headers : option (list key))
    (rows : list (list string)) : list (list string) :=
  match headers with
  | Some _ => filter nonblank rows
  | None =>
      match rows with
      | [] => []
      | first :: rest => first :: filter nonblank rest
      end
  end.

(** The text a CSV cell has after a conversion: [true] and [false] in any
    letter case have become [True] and [False]. *)
Definition recase (s : string) : string :=
  if (Text.lower s =? "true")%string then "True"
  else if (Text.lower s =? "false")%string then "False"
  else s.

(** A text under the trimming option. *)
Definition kept (trim_long_strings : bool) (s : string) : string :=
  if trim_long_strings then enforce_excel_cell_string_limit s 32750 else s.

(** The import failed softly: it printed one line and returned [None]. *)
Definition soft_failure (suffix : extension) (f : source_file) : bool :=
  negb (src_exists f) ||
  match suffix with
  | DotOther => true
  | DotJson =>
      match src_json f with
      | JsonZeroBytes | JsonInvalid => true
      | JsonParsed _ => false
      end
  | DotCsv => false
  end.

(** * Properties *)

(** ** Text *)

Lemma length_append (a b : string) :
  String.length (a ++ b)%string = (String.length a + String.length b)%nat.
Proof.
  induction a as [|c a IH]; simpl; [reflexivity | now rewrite IH].
Qed.

Lemma length_substring_0 (n : nat) (s : string) :
  (n <= String.length s)%nat -> String.length (substring 0 n s) = n.
Proof.
  revert s; induction n as [|n IH]; intros s Hn.
  - destruct s; reflexivity.
  - destruct s as [|c s]; simpl in *; [lia |].
    rewrite IH; [reflexivity | lia].
Qed.

Lemma clamp_ge_4 (limit : Z) : 4 <= (if limit <=? 3 then 4 else limit).
Proof. destruct (Z.leb_spec limit 3); lia. Qed.

Lemma enforce_long (s : string) (limit : Z) :
  let clamped := if limit <=? 3 then 4 else limit in
  Text.len s > clamped ->
  enforce_excel_cell_string_limit s limit
  = (substring 0 (Z.to_nat (clamped - 3)) s ++ "...")%string.
Proof.
  intros clamped Hlong. unfold enforce_excel_cell_string_limit.
  fold clamped. pose proof (clamp_ge_4 limit) as Hc. fold clamped in Hc.
  replace (Text.len s >? clamped) with true
    by (symmetry; apply Z.gtb_lt; lia).
  unfold Text.slice_to.
  replace (clamped - 3 <? 0) with false
    by (symmetry; apply Z.ltb_ge; lia).
  reflexivity.
Qed.

Lemma enforce_short (s : string) (limit : Z) :
  let clamped := if limit <=? 3 then 4 else limit in
  Text.len s <= clamped ->
  enforce_excel_cell_string_limit s limit = s.
Proof.
  intros clamped Hshort. unfold enforce_excel_cell_string_limit.
  fold clamped.
  replace (Text.len s >? clamped) with false; [reflexivity |].
  symmetry. rewrite Z.gtb_ltb. apply Z.ltb_ge. lia.
Qed.

Lemma enforce_long_length (s : string) (limit : Z) :
  let clamped := if limit <=? 3 then 4 else limit in
  Text.len s > clamped ->
  Text.len (enforce_excel_cell_string_limit s limit) = clamped.
Proof.
  intros clamped Hlong.
  pose proof (clamp_ge_4 limit) as Hc. fold clamped in Hc.
  rewrite enforce_long by exact Hlong. fold clamped.
  unfold Text.len in *. rewrite length_append, length_substring_0 by lia.
  simpl String.length. lia.
Qed.

(** C8.  [enforce_excel_cell_string_limit] works with the limit clamped
    up to 4 when it is 3 or less.  A string longer than the clamped limit
    becomes its first [limit - 3] characters followed by ["..."]: the
    result has exactly [limit] characters, hence at most [limit], and ends
    with the marker.  Any other string is returned unchanged.  A limit of
    2 (or any limit up to 3) behaves as 4, and a 20-character string under
    limit 10 comes back with at most 10 characters, ending in ["..."]. *)
Theorem enforce_excel_cell_string_limit_spec (s : string) (limit : Z) :
  let clamped := if limit <=? 3 then 4 else limit in
  (Text.len s > clamped ->
     enforce_excel_cell_string_limit s limit
     = (substring 0 (Z.to_nat (clamped - 3)) s ++ "...")%string /\
     Text.len (substring 0 (Z.to_nat (clamped - 3)) s) = clamped - 3 /\
     Text.len (enforce_excel_cell_string_limit s limit) <= clamped /\
     Text.ends_with (enforce_excel_cell_string_limit s limit) "...") /\
  (Text.len s <= clamped -> enforce_excel_cell_string_limit s limit = s) /\
  (limit <= 3 ->
     enforce_excel_cell_string_limit s limit
     = enforce_excel_cell_string_limit s 4) /\
  enforce_excel_cell_string_limit s 2 = enforce_excel_cell_string_limit s 4 /\
  (Text.len s = 20 ->
     Text.len (enforce_excel_cell_string_limit s 10) <= 10 /\
     Text.ends_with (enforce_excel_cell_string_limit s 10) "...").
Proof.
  intros clamped. pose proof (clamp_ge_4 limit) as Hc. fold clamped in Hc.
  split; [intros Hlong; split; [| split; [| split]] | split; [| split; [| split]]].
  - now apply enforce_long.
  - unfold Text.len in *. rewrite length_substring_0; lia.
  - pose proof (enforce_long_length s limit Hlong) as Hl. fold clamped in Hl. lia.
  - exists (substring 0 (Z.to_nat (clamped - 3)) s). now apply enforce_long.
  - apply enforce_short.
  - intros Hle. unfold enforce_excel_cell_string_limit.
    replace (limit <=? 3) with true by (symmetry; apply Z.leb_le; lia).
    reflexivity.
  - reflexivity.
  - intros H20. split.
    + pose proof (enforce_long_length s 10) as Hl. simpl in Hl. lia.
    + exists (substring 0 (Z.to_nat (10 - 3)) s).
      apply (enforce_long s 10). simpl. lia.
Qed.

Lemma enforce_excel_cell_string_limit_spec_witness :
  let s := "abcdefghijklmnopqrst" in
  enforce_excel_cell_string_limit s 10 = "abcdefg..." /\
  Text.len (enforce_excel_cell_string_limit s 10) <= 10 /\
  Text.ends_with (enforce_excel_cell_string_limit s 10) "..." /\
  enforce_excel_cell_string_limit "abc" 10 = "abc".
Proof.
  pose proof (enforce_excel_cell_string_limit_spec "abcdefghijklmnopqrst" 10)
    as [Hlong [_ [_ [_ H20]]]].
  pose proof (enforce_excel_cell_string_limit_spec "abc" 10)
    as [_ [Hshort _]].
  simpl in Hlong, Hshort.
  destruct Hlong as [Heq _]; [unfold Text.len; simpl; lia |].
  destruct H20 as [Hlen Hend]; [reflexivity |].
  split; [exact Heq | split; [exact Hlen | split; [exact Hend |]]].
  apply Hshort. unfold Text.len; simpl; lia.
Defined.

(** ** [str2bool] and the guard at its call site *)

Lemma guard_cases (s : string) :
  Text.mem (Text.lower s) ["true"; "false"]
  = ((Text.lower s =? "true")%string || (Text.lower s =? "false")%string)%bool.
Proof. unfold Text.mem. simpl. now rewrite orb_false_r. Qed.

Lemma str2bool_guarded (s : string) :
  Text.mem (Text.lower s) ["true"; "false"] = true ->
  str2bool s = VBool (Text.lower s =? "true")%string.
Proof.
  rewrite guard_cases. unfold str2bool.
  destruct (Text.lower s =? "true")%string; [reflexivity |].
  simpl. now intros ->.
Qed.

(** C10.  On a string whose lower-case form is neither ["true"] nor
    ["false"], [str2bool] falls through and returns [None].  The
    normalizer calls it only under the guard
    [v.lower() in ['true', 'false']], and under that guard the result is
    [True] or [False]: whenever the loop body changes the record, the
    value it stores is a boolean. *)
Theorem str2bool_fallthrough_unreachable :
  (forall s : string,
      Text.lower s <> "true" -> Text.lower s <> "false" ->
      str2bool s = VNone) /\
  (forall s : string,
      Text.mem (Text.lower s) ["true"; "false"] = true ->
      exists b : bool, str2bool s = VBool b) /\
  (forall (record record' : dict) (k : key) (v : pyval),
      normalize_item record k v = Return record' ->
      record' = record \/
      exists (s : string) (b : bool),
        v = VStr s /\ str2bool s = VBool b /\
        record' = dict_set record k (VBool b)).
Proof.
  split; [| split].
  - intros s Ht Hf. unfold str2bool.
    apply String.eqb_neq in Ht. apply String.eqb_neq in Hf.
    now rewrite Ht, Hf.
  - intros s Hg. eexists. now apply str2bool_guarded.
  - intros record record' k v H. unfold normalize_item in H.
    destruct v; try discriminate.
    + destruct (Text.mem (Text.lower s) ["true"; "false"]) eqn:Hg.
      * right. exists s, (Text.lower s =? "true")%string.
        rewrite (str2bool_guarded s Hg) in *. inversion H.
        split; [reflexivity | split; reflexivity].
      * left. now inversion H.
    + left. now inversion H.
Qed.

Lemma str2bool_fallthrough_unreachable_witness :
  str2bool "maybe" = VNone /\
  (exists b : bool, str2bool "TrUe" = VBool b) /\
  (exists b : bool, str2bool "FALSE" = VBool b).
Proof.
  destruct str2bool_fallthrough_unreachable as [Hnone [Hbool _]].
  split; [| split].
  - apply Hnone; discriminate.
  - apply Hbool. reflexivity.
  - apply Hbool. reflexivity.
Defined.

(** ** Import: the failure paths *)

(** C1.  On a zero-byte file and on malformed content the importer prints
    its message and leaves [data] at [None]; the unguarded [len(data)] of
    line 173 then raises [TypeError], so nothing is returned. *)
Theorem import_csv_empty_or_malformed_raises
    (filepath : string) (headers : option (list key)) :
  import_csv_from_disk filepath ZeroBytes headers
  = ([(filepath ++ " is empty.")%string], Raise TypeError) /\
  import_csv_from_disk filepath Malformed headers
  = ([(filepath ++ " exists, but could not load it.")%string], Raise TypeError).
Proof. split; reflexivity. Qed.

(** C2.  A row shorter than the header set gets [None] for the fields it
    lacks, and the normalizer then calls [lower] on that [None]: the
    import raises [AttributeError] instead of keeping the sentinel.  Here
    three headers are passed for a file of two columns. *)
Theorem import_csv_short_row_raises :
  let headers := Some [KStr "a"; KStr "b"; KStr "c"] in
  let rows := [["x"; "y"]; ["z"; "w"]] in
  DictReader headers rows
  = [[(KStr "a", VStr "x"); (KStr "b", VStr "y"); (KStr "c", VNone)];
     [(KStr "a", VStr "z"); (KStr "b", VStr "w"); (KStr "c", VNone)]] /\
  import_csv_from_disk "in.csv" (Parsed rows) headers
  = ([], Raise AttributeError).
Proof. split; reflexivity. Qed.

(** ** Dictionaries as insertion-ordered association lists *)

Ltac key_props :=
  repeat match goal with
         | H : Bool.eqb _ _ = true |- _ => apply Bool.eqb_prop in H
         | H : (_ =? _)%string = true |- _ => apply String.eqb_eq in H
         | H : (_ =? _) = true |- _ => apply Z.eqb_eq in H
         | H : false = true |- _ => discriminate H
         end.

Lemma key_eqb_refl (k : key) : key_eqb k k = true.
Proof.
  destruct k; simpl.
  - reflexivity.
  - now destruct b.
  - apply Z.eqb_refl.
  - apply String.eqb_refl.
Qed.

Lemma key_eqb_sym (a b : key) : key_eqb a b = key_eqb b a.
Proof.
  destruct a, b; simpl; try reflexivity.
  - now destruct b0, b.
  - apply Z.eqb_sym.
  - apply String.eqb_sym.
Qed.

Lemma key_eqb_trans (a b c : key) :
  key_eqb a b = true -> key_eqb b c = true -> key_eqb a c = true.
Proof.
  destruct a, b, c; simpl; intros Hab Hbc; key_props; subst;
    try reflexivity; try discriminate;
    repeat match goal with
           | x : bool |- _ => destruct x
           end;
    try reflexivity; try discriminate;
    try (apply Z.eqb_eq; lia); try apply Z.eqb_refl; try apply String.eqb_refl.
Qed.

Lemma key_eqb_false_l (a b c : key) :
  key_eqb a b = true -> key_eqb b c = false -> key_eqb a c = false.
Proof.
  intros Hab Hbc. destruct (key_eqb a c) eqn:Hac; [| reflexivity].
  rewrite key_eqb_sym in Hab.
  now rewrite (key_eqb_trans _ _ _ Hab Hac) in Hbc.
Qed.

Lemma key_eqb_KStr (a b : string) : key_eqb (KStr a) (KStr b) = (a =? b)%string.
Proof. reflexivity. Qed.

Lemma dict_get_set_same (d : dict) (k : key) (v : pyval) :
  dict_get (dict_set d k v) k = Some v.
Proof.
  induction d as [|[k' v'] d IH]; simpl.
  - now rewrite key_eqb_refl.
  - destruct (key_eqb k' k) eqn:E; simpl; rewrite E; [reflexivity | exact IH].
Qed.

Lemma dict_get_set_other (d : dict) (k1 k2 : key) (v : pyval) :
  key_eqb k1 k2 = false ->
  dict_get (dict_set d k1 v) k2 = dict_get d k2.
Proof.
  intros Hne. induction d as [|[k' v'] d IH]; simpl.
  - now rewrite Hne.
  - destruct (key_eqb k' k1) eqn:E; simpl.
    + now rewrite (key_eqb_false_l _ _ _ E Hne).
    + now rewrite IH.
Qed.

Lemma keys_dict_set (d : dict) (k : key) (v : pyval) :
  keys (dict_set d k v)
  = if existsb (fun k' => key_eqb k' k) (keys d) then keys d
    else (keys d ++ [k])%list.
Proof.
  unfold keys.
  induction d as [|[k' v'] d IH]; simpl; [reflexivity |].
  destruct (key_eqb k' k); simpl; [reflexivity |].
  rewrite IH.
  now destruct (existsb (fun k'0 => key_eqb k'0 k) (map fst d)).
Qed.

Lemma dict_set_wf (d : dict) (k : key) (v : pyval) :
  dict_wf d = true -> dict_wf (dict_set d k v) = true.
Proof.
  induction d as [|[k' v'] d IH]; simpl; [reflexivity |].
  intros Hwf. apply andb_true_iff in Hwf as [Hfresh Hwf].
  destruct (key_eqb k' k) eqn:E; simpl.
  - now rewrite Hfresh, Hwf.
  - rewrite (IH Hwf), andb_true_r, keys_dict_set.
    destruct (existsb (fun k'0 => key_eqb k'0 k) (keys d)); [exact Hfresh |].
    rewrite existsb_app. simpl. rewrite E.
    apply negb_true_iff in Hfresh. now rewrite Hfresh.
Qed.

Lemma fold_dict_set_wf {A : Type} (f : A -> key * pyval) (xs : list A) (d : dict) :
  dict_wf d = true ->
  dict_wf (fold_left (fun d x => dict_set d (fst (f x)) (snd (f x))) xs d) = true.
Proof.
  revert d. induction xs as [|x xs IH]; intros d Hwf; simpl; [exact Hwf |].
  apply IH. now apply dict_set_wf.
Qed.

Lemma dict_of_wf (pairs : list (key * pyval)) : dict_wf (dict_of pairs) = true.
Proof. apply (fold_dict_set_wf (fun kv => kv)). reflexivity. Qed.

Lemma dictreader_row_wf (fieldnames : list key) (row : list string) :
  dict_wf (dictreader_row fieldnames row) = true.
Proof.
  unfold dictreader_row.
  destruct (List.length fieldnames <? List.length row)%nat.
  - apply dict_set_wf, dict_of_wf.
  - destruct (List.length row <? List.length fieldnames)%nat.
    + apply (fold_dict_set_wf (fun k => (k, VNone))), dict_of_wf.
    + apply dict_of_wf.
Qed.

Lemma DictReader_wf (headers : option (list key)) (rows : list (list string)) :
  Forall (fun r => dict_wf r = true) (DictReader headers rows).
Proof.
  unfold DictReader.
  destruct headers as [fieldnames|]; [| destruct rows as [|first rest]];
    try constructor; apply Forall_forall; intros r Hin;
    apply in_map_iff in Hin as [row [<- _]]; apply dictreader_row_wf.
Qed.

Lemma dict_wf_keys (d1 d2 : dict) :
  keys d1 = keys d2 -> dict_wf d1 = dict_wf d2.
Proof.
  revert d2. induction d1 as [|[k1 v1] d1 IH]; intros [|[k2 v2] d2] Hk;
    simpl in *; try discriminate; [reflexivity |].
  injection Hk as -> Hk. unfold keys in *. now rewrite Hk, (IH d2 Hk).
Qed.

Lemma dict_wf_app_head (pre rest : dict) (k : key) (v : pyval) :
  dict_wf (pre ++ (k, v) :: rest) = true ->
  forallb (fun k' => negb (key_eqb k' k)) (keys pre) = true.
Proof.
  induction pre as [|[k0 v0] pre IH]; simpl; [reflexivity |].
  intros Hwf. apply andb_true_iff in Hwf as [Hfresh Hwf].
  rewrite (IH Hwf), andb_true_r.
  apply negb_true_iff in Hfresh. unfold keys in Hfresh.
  rewrite map_app, existsb_app in Hfresh. simpl in Hfresh.
  apply orb_false_iff in Hfresh as [_ Hfresh].
  apply orb_false_iff in Hfresh as [Hfresh _]. now rewrite Hfresh.
Qed.

Lemma dict_set_middle (pre rest : dict) (k : key) (v x : pyval) :
  forallb (fun k' => negb (key_eqb k' k)) (keys pre) = true ->
  dict_set (pre ++ (k, v) :: rest) k x = (pre ++ (k, x) :: rest)%list.
Proof.
  induction pre as [|[k0 v0] pre IH]; simpl.
  - now rewrite key_eqb_refl.
  - intros H. apply andb_true_iff in H as [Hne H].
    apply negb_true_iff in Hne. now rewrite Hne, (IH H).
Qed.

Lemma coerce_guarded (s : string) :
  Text.mem (Text.lower s) ["true"; "false"] = true ->
  str2bool s = coerce (VStr s).
Proof.
  intros Hg. rewrite guard_cases in Hg. unfold str2bool, coerce.
  destruct (Text.lower s =? "true")%string; [reflexivity |].
  simpl in Hg. now rewrite Hg.
Qed.

Lemma coerce_unguarded (s : string) :
  Text.mem (Text.lower s) ["true"; "false"] = false ->
  coerce (VStr s) = VStr s.
Proof.
  intros Hg. rewrite guard_cases in Hg.
  apply orb_false_iff in Hg as [Ht Hf]. unfold coerce. now rewrite Ht, Hf.
Qed.

Lemma normalize_item_spec (pre rest : dict) (k : key) (v : pyval) :
  dict_wf (pre ++ (k, v) :: rest) = true ->
  normalize_item (pre ++ (k, v) :: rest) k v
  = if lowerable v then Return (pre ++ (k, coerce v) :: rest)
    else Raise AttributeError.
Proof.
  intros Hwf. unfold normalize_item.
  destruct v; try reflexivity.
  destruct (Text.mem (Text.lower s) ["true"; "false"]) eqn:Hg.
  - rewrite (dict_set_middle _ _ _ _ _ (dict_wf_app_head _ _ _ _ Hwf)).
    now rewrite (coerce_guarded _ Hg).
  - now rewrite (coerce_unguarded _ Hg).
Qed.

(** The inner loop, on a dictionary: every item is visited once, in
    order; it raises at the first value that is neither text nor a list. *)
Lemma normalize_items_spec (todo pre : dict) :
  dict_wf (pre ++ todo) = true ->
  normalize_items todo (pre ++ todo)
  = if all_lowerable todo then Return (pre ++ map coerce_item todo)
    else Raise AttributeError.
Proof.
  revert pre. induction todo as [|[k v] todo IH]; intros pre Hwf.
  - reflexivity.
  - cbn [normalize_items]. rewrite (normalize_item_spec _ _ _ _ Hwf).
    unfold all_lowerable, values in *. cbn [map snd forallb].
    destruct (lowerable v); [| reflexivity]. cbn [bind andb].
    replace (pre ++ (k, coerce v) :: todo)
      with ((pre ++ [(k, coerce v)]) ++ todo) by now rewrite <- app_assoc.
    rewrite IH.
    + destruct (forallb lowerable (map snd todo)); [| reflexivity].
      now rewrite <- app_assoc.
    + rewrite <- Hwf. apply dict_wf_keys. unfold keys.
      now rewrite <- app_assoc, !map_app.
Qed.

Lemma normalize_record_spec (record : dict) :
  dict_wf record = true ->
  normalize_record record
  = if all_lowerable record then Return (map coerce_item record)
    else Raise AttributeError.
Proof. intros Hwf. apply (normalize_items_spec record [] Hwf). Qed.

Lemma normalize_records_spec (data : list dict) :
  Forall (fun r => dict_wf r = true) data ->
  normalize_records data
  = if forallb all_lowerable data then Return (map (map coerce_item) data)
    else Raise AttributeError.
Proof.
  induction 1 as [|record data Hwf _ IH]; [reflexivity |].
  simpl. rewrite (normalize_record_spec _ Hwf), IH.
  destruct (all_lowerable record); [| reflexivity].
  now destruct (forallb all_lowerable data).
Qed.

(** The importer on content the reader could parse. *)
Lemma import_csv_parsed (filepath : string) (rows : list (list string))
    (headers : option (list key)) :
  import_csv_from_disk filepath (Parsed rows) headers
  = ([],
     if forallb all_lowerable (DictReader headers rows)
     then collapse (Some (map (map coerce_item) (DictReader headers rows)))
     else Raise AttributeError).
Proof.
  unfold import_csv_from_disk.
  rewrite (normalize_records_spec _ (DictReader_wf headers rows)).
  now destruct (forallb all_lowerable (DictReader headers rows)).
Qed.

(** ** Import: rows at least as wide as the header set *)

Lemma forallb_values_dict_set (P : pyval -> bool) (d : dict) (k : key) (v : pyval) :
  forallb P (values d) = true -> P v = true ->
  forallb P (values (dict_set d k v)) = true.
Proof.
  unfold values. intros Hd Hv. induction d as [|[k' v'] d IH]; simpl in *.
  - now rewrite Hv.
  - apply andb_true_iff in Hd as [Hv' Hd].
    destruct (key_eqb k' k); simpl.
    + now rewrite Hv, Hd.
    + now rewrite Hv', (IH Hd).
Qed.

Lemma forallb_values_dict_of (P : pyval -> bool) (pairs : list (key * pyval)) :
  forallb P (map snd pairs) = true ->
  forallb P (values (dict_of pairs)) = true.
Proof.
  unfold dict_of.
  assert (H : forall d, forallb P (values d) = true ->
                        forallb P (map snd pairs) = true ->
                        forallb P (values
                          (fold_left (fun d kv => dict_set d (fst kv) (snd kv))
                                     pairs d)) = true).
  { induction pairs as [|[k v] pairs IH]; intros d Hd Hp; simpl in *.
    - exact Hd.
    - apply andb_true_iff in Hp as [Hv Hp].
      apply IH; [now apply forallb_values_dict_set | exact Hp]. }
  apply H. reflexivity.
Qed.

Lemma forallb_lowerable_combine (fieldnames : list key) (row : list string) :
  forallb lowerable (map snd (combine fieldnames (map VStr row))) = true.
Proof.
  revert row. induction fieldnames as [|k ks IH]; intros [|c row]; simpl;
    try reflexivity. apply IH.
Qed.

Lemma dictreader_row_lowerable (fieldnames : list key) (row : list string) :
  (List.length fieldnames <= List.length row)%nat ->
  all_lowerable (dictreader_row fieldnames row) = true.
Proof.
  intros Hlen. unfold all_lowerable, dictreader_row.
  pose proof (forallb_values_dict_of lowerable _
                (forallb_lowerable_combine fieldnames row)) as Hd.
  destruct (Nat.ltb_spec (List.length fieldnames) (List.length row)).
  - now apply forallb_values_dict_set.
  - destruct (Nat.ltb_spec (List.length row) (List.length fieldnames));
      [lia | exact Hd].
Qed.

Lemma coerce_cell_normalized (v : pyval) : cell_normalized v (coerce v).
Proof.
  intros s ->. unfold coerce. split; [| split].
  - intros ->. reflexivity.
  - intros Hf. rewrite Hf.
    destruct (Text.lower s =? "true")%string eqn:E; [| reflexivity].
    apply String.eqb_eq in E. congruence.
  - intros Ht Hf. apply String.eqb_neq in Ht. apply String.eqb_neq in Hf.
    now rewrite Ht, Hf.
Qed.

Lemma coerce_record_normalized (record : dict) :
  record_normalized record (map coerce_item record).
Proof.
  induction record as [|[k v] record IH]; constructor; [| exact IH].
  split; [reflexivity | apply coerce_cell_normalized].
Qed.

Lemma records_of_list (records : list dict) :
  records_of (VList (map VDict records)) = records.
Proof.
  induction records as [|r records IH]; [reflexivity |].
  simpl in *. now rewrite IH.
Qed.

Lemma records_of_collapse (records : list dict) (v : pyval) :
  collapse (Some records) = Return v -> records_of v = records.
Proof.
  destruct records as [|r [|r' rest]]; cbn [collapse]; intros H;
    inversion H; subst; try reflexivity.
  apply (records_of_list (r :: r' :: rest)).
Qed.

Lemma DictReader_rows (headers : option (list key)) (rows : list (list string)) :
  DictReader headers rows
  = map (dictreader_row (field_names headers rows))
        (filter nonblank (data_rows headers rows)).
Proof. destruct headers as [fieldnames|]; [| destruct rows]; reflexivity. Qed.

Lemma collapse_returns (records : list dict) :
  exists v, collapse (Some records) = Return v.
Proof. destruct records as [|r [|r' rest]]; eexists; reflexivity. Qed.

(** An import whose non-blank rows are all at least as wide as the header
    set returns. *)
Lemma import_csv_wide_rows_return (filepath : string)
    (rows : list (list string)) (headers : option (list key)) :
  (forall row, In row (data_rows headers rows) -> row <> [] ->
               (List.length (field_names headers rows) <= List.length row)%nat) ->
  exists v, snd (import_csv_from_disk filepath (Parsed rows) headers) = Return v.
Proof.
  intros Hwide. rewrite import_csv_parsed. cbn [snd].
  assert (Hlow : forallb all_lowerable (DictReader headers rows) = true).
  { rewrite DictReader_rows. apply forallb_forall. intros r Hin.
    apply in_map_iff in Hin as [row [<- Hrow]].
    apply filter_In in Hrow as [Hrow Hnb].
    apply dictreader_row_lowerable, Hwide; [exact Hrow |].
    now destruct row. }
  rewrite Hlow. apply collapse_returns.
Qed.

(** C5.  Whatever the importer returns, its records are the rows read,
    key by key, with every text cell normalized: text that is ["true"] or
    ["false"] up to letter case has become [True] or [False], every other
    text cell is the text that was read.  And it does return whenever no
    non-blank row is narrower than the header set. *)
Theorem import_csv_normalizes_boolean_text
    (filepath : string) (rows : list (list string))
    (headers : option (list key)) :
  (forall v : pyval,
      snd (import_csv_from_disk filepath (Parsed rows) headers) = Return v ->
      Forall2 record_normalized (DictReader headers rows) (records_of v)) /\
  ((forall row, In row (data_rows headers rows) -> row <> [] ->
                (List.length (field_names headers rows) <= List.length row)%nat) ->
   exists v : pyval,
     snd (import_csv_from_disk filepath (Parsed rows) headers) = Return v).
Proof.
  split; [| apply import_csv_wide_rows_return].
  intros v. rewrite import_csv_parsed. cbn [snd].
  destruct (forallb all_lowerable (DictReader headers rows)); [| discriminate].
  intros H. rewrite (records_of_collapse _ _ H). clear H.
  induction (DictReader headers rows) as [|r rs IH]; simpl; constructor;
    [apply coerce_record_normalized | exact IH].
Qed.

Lemma import_csv_normalizes_boolean_text_witness :
  Forall2 record_normalized
    (DictReader None [["name"; "ok"]; ["ann"; "TRUE"]; ["bob"; "False"]])
    [[(KStr "name", VStr "ann"); (KStr "ok", VBool true)];
     [(KStr "name", VStr "bob"); (KStr "ok", VBool false)]] /\
  exists v : pyval,
    snd (import_csv_from_disk "in.csv"
           (Parsed [["name"; "ok"]; ["ann"; "TRUE"]; ["bob"; "False"]]) None)
    = Return v.
Proof.
  destruct (import_csv_normalizes_boolean_text "in.csv"
              [["name"; "ok"]; ["ann"; "TRUE"]; ["bob"; "False"]] None)
    as [Hcells Hreturns].
  split.
  - apply (Hcells
             (VList
                [VDict [(KStr "name", VStr "ann"); (KStr "ok", VBool true)];
                 VDict [(KStr "name", VStr "bob"); (KStr "ok", VBool false)]])).
    reflexivity.
  - apply Hreturns. intros row Hin _.
    destruct Hin as [<- | [<- | []]]; simpl; lia.
Defined.

(** C6.  When normalization leaves a table of exactly one record, the
    importer returns that record itself, a mapping, not a list holding it.
    In particular a file with a header line and one data row at least as
    wide, imported without [headers], comes back as a single mapping. *)
Theorem import_csv_single_record_collapses :
  (forall (filepath : string) (rows : list (list string))
          (headers : option (list key)) (record : dict),
      normalize_records (DictReader headers rows) = Return [record] ->
      snd (import_csv_from_disk filepath (Parsed rows) headers)
      = Return (VDict record)) /\
  (forall (filepath : string) (header row : list string),
      row <> [] ->
      (List.length header <= List.length row)%nat ->
      snd (import_csv_from_disk filepath (Parsed [header; row]) None)
      = Return (VDict (map coerce_item (dictreader_row (map KStr header) row)))).
Proof.
  split.
  - intros filepath rows headers record H.
    unfold import_csv_from_disk. cbn [snd]. now rewrite H.
  - intros filepath header row Hrow Hlen.
    rewrite import_csv_parsed. cbn [snd].
    destruct row as [|c row]; [contradiction |].
    cbn [DictReader filter nonblank map forallb].
    rewrite dictreader_row_lowerable by (now rewrite length_map).
    reflexivity.
Qed.

(** A file of one line imported without [headers] has only its header:
    the table is empty. *)
Lemma import_csv_header_only (filepath : string) (header : list string) :
  import_csv_from_disk filepath (Parsed [header]) None = ([], Return (VList [])).
Proof. reflexivity. Qed.

Lemma import_csv_single_record_collapses_witness :
  snd (import_csv_from_disk "in.csv"
         (Parsed [["a"; "b"; "c"]; ["1"; "true"; "x"]]) None)
  = Return (VDict [(KStr "a", VStr "1"); (KStr "b", VBool true);
                   (KStr "c", VStr "x")]) /\
  snd (import_csv_from_disk "in.csv" (Parsed [["1"; "true"; "x"]])
         (Some [KStr "a"; KStr "b"; KStr "c"]))
  = Return (VDict [(KStr "a", VStr "1"); (KStr "b", VBool true);
                   (KStr "c", VStr "x")]).
Proof.
  destruct import_csv_single_record_collapses as [Hone Hfile].
  split.
  - apply (Hfile "in.csv" ["a"; "b"; "c"] ["1"; "true"; "x"]).
    + discriminate.
    + simpl. lia.
  - apply Hone. reflexivity.
Defined.

(** ** Import: rows wider or narrower than the header set *)

Lemma dict_get_coerce (d : dict) (k : key) :
  dict_get (map coerce_item d) k = option_map coerce (dict_get d k).
Proof.
  induction d as [|[k' v'] d IH]; simpl; [reflexivity |].
  now destruct (key_eqb k' k).
Qed.

Lemma dict_get_fold_set (pairs : list (key * pyval)) (d : dict) (k : key) (v : pyval) :
  dict_get (fold_left (fun d kv => dict_set d (fst kv) (snd kv)) pairs d) k
  = Some v ->
  dict_get d k = Some v \/ exists k', In (k', v) pairs.
Proof.
  revert d. induction pairs as [|[k1 v1] pairs IH]; intros d H; simpl in *.
  - now left.
  - destruct (IH _ H) as [Hd | [k' Hin]].
    + destruct (key_eqb k1 k) eqn:E.
      * assert (Hk : dict_get (dict_set d k1 v1) k = Some v1).
        { rewrite <- (dict_get_set_same d k1 v1).
          clear - E. induction (dict_set d k1 v1) as [|[a b] l IHl];
            simpl; [reflexivity |].
          destruct (key_eqb a k) eqn:Ea.
          - rewrite key_eqb_sym in E.
            now rewrite (key_eqb_trans _ _ _ Ea E).
          - destruct (key_eqb a k1) eqn:Eb; [| exact IHl].
            now rewrite (key_eqb_trans _ _ _ Eb E) in Ea. }
        rewrite Hk in Hd. injection Hd as <-. right. exists k1. now left.
      * rewrite (dict_get_set_other _ _ _ _ E) in Hd. now left.
    + right. exists k'. now right.
Qed.

Lemma dict_get_dict_of (pairs : list (key * pyval)) (k : key) (v : pyval) :
  dict_get (dict_of pairs) k = Some v -> exists k', In (k', v) pairs.
Proof.
  intros H. destruct (dict_get_fold_set _ _ _ _ H) as [Hd | Hin];
    [discriminate | exact Hin].
Qed.

Lemma in_combine_leading (fieldnames : list key) (row : list string)
    (k : key) (v : pyval) :
  In (k, v) (combine fieldnames (map VStr row)) ->
  exists s, In s (firstn (List.length fieldnames) row) /\ v = VStr s.
Proof.
  revert row. induction fieldnames as [|k0 ks IH]; intros [|c row] Hin;
    simpl in *; try contradiction.
  destruct Hin as [Heq | Hin].
  - injection Heq as _ <-. exists c. split; [now left | reflexivity].
  - destruct (IH _ Hin) as [s [Hs ->]]. exists s. split; [now right | reflexivity].
Qed.

(** What the importer does with a row of more values than headers: after
    normalization the record holds the surplus cells, in order, as a list
    under the key [None], and every other key holds the normalized text
    of one of the leading cells.  A file with that one row imports as
    this record. *)
Lemma import_csv_long_row_keeps_surplus
    (fieldnames : list key) (row : list string) :
  (List.length fieldnames < List.length row)%nat ->
  let record := map coerce_item (dictreader_row fieldnames row) in
  normalize_record (dictreader_row fieldnames row) = Return record /\
  dict_get record KNone
  = Some (VList (map VStr (skipn (List.length fieldnames) row))) /\
  (forall (k : key) (v : pyval),
      key_eqb KNone k = false ->
      dict_get record k = Some v ->
      exists s, In s (firstn (List.length fieldnames) row) /\
                v = coerce (VStr s)) /\
  (forall filepath : string,
      snd (import_csv_from_disk filepath (Parsed [row]) (Some fieldnames))
      = Return (VDict record)).
Proof.
  intros Hlen record.
  assert (Hlow : all_lowerable (dictreader_row fieldnames row) = true)
    by (apply dictreader_row_lowerable; lia).
  assert (Hrow : dictreader_row fieldnames row
                 = dict_set (dict_of (combine fieldnames (map VStr row))) KNone
                     (VList (map VStr (skipn (List.length fieldnames) row)))).
  { unfold dictreader_row.
    now destruct (Nat.ltb_spec (List.length fieldnames) (List.length row));
      [| lia]. }
  split; [| split; [| split]].
  - rewrite (normalize_record_spec _ (dictreader_row_wf _ _)). now rewrite Hlow.
  - unfold record. now rewrite dict_get_coerce, Hrow, dict_get_set_same.
  - intros k v Hk Hget. unfold record in Hget.
    rewrite dict_get_coerce, Hrow, (dict_get_set_other _ _ _ _ Hk) in Hget.
    destruct (dict_get (dict_of (combine fieldnames (map VStr row))) k)
      as [c|] eqn:Hc; [| discriminate].
    injection Hget as <-.
    destruct (dict_get_dict_of _ _ _ Hc) as [k' Hin].
    destruct (in_combine_leading _ _ _ _ Hin) as [s [Hs ->]].
    now exists s.
  - intros filepath. rewrite import_csv_parsed. cbn [snd].
    destruct row as [|c row]; [simpl in Hlen; lia |].
    cbn [DictReader filter nonblank map forallb]. now rewrite Hlow.
Qed.

Lemma import_csv_long_row_keeps_surplus_witness :
  snd (import_csv_from_disk "in.csv" (Parsed [["1"; "TRUE"; "3"; "4"]])
         (Some [KStr "a"; KStr "b"]))
  = Return (VDict [(KStr "a", VStr "1"); (KStr "b", VBool true);
                   (KNone, VList [VStr "3"; VStr "4"])]).
Proof.
  assert (Hlen : (List.length [KStr "a"; KStr "b"]
                  < List.length ["1"; "TRUE"; "3"; "4"])%nat) by (simpl; lia).
  destruct (import_csv_long_row_keeps_surplus
              [KStr "a"; KStr "b"] ["1"; "TRUE"; "3"; "4"] Hlen)
    as [_ [_ [_ Himport]]].
  exact (Himport "in.csv").
Defined.

(** C3.  The docstring (lines 125-126) says that when a row has more
    fields than the headers the remaining data is ignored, but the reader
    keeps it under its rest key [None] and the import returns it: here
    one header is passed for a file of three columns, and the two surplus
    cells of each row are in the records that come back, as a list under
    [None]. *)
Theorem import_csv_surplus_not_dropped :
  exists first second : dict,
    snd (import_csv_from_disk "in.csv"
           (Parsed [["1"; "2"; "3"]; ["4"; "5"; "6"]]) (Some [KStr "a"]))
    = Return (VList [VDict first; VDict second]) /\
    dict_get first KNone = Some (VList [VStr "2"; VStr "3"]) /\
    dict_get second KNone = Some (VList [VStr "5"; VStr "6"]).
Proof.
  exists [(KStr "a", VStr "1"); (KNone, VList [VStr "2"; VStr "3"])],
         [(KStr "a", VStr "4"); (KNone, VList [VStr "5"; VStr "6"])].
  split; [reflexivity | split; reflexivity].
Qed.

Lemma dict_get_not_lowerable (d : dict) (k : key) (v : pyval) :
  dict_get d k = Some v -> lowerable v = false -> all_lowerable d = false.
Proof.
  unfold all_lowerable, values.
  induction d as [|[k' v'] d IH]; simpl; [discriminate |].
  destruct (key_eqb k' k).
  - intros [= ->] Hv. now rewrite Hv.
  - intros Hget Hv. rewrite (IH Hget Hv). apply andb_false_r.
Qed.

Lemma dictreader_row_short (fieldnames : list key) (row : list string) :
  (List.length row < List.length fieldnames)%nat ->
  all_lowerable (dictreader_row fieldnames row) = false.
Proof.
  intros Hlen. unfold dictreader_row.
  destruct (Nat.ltb_spec (List.length fieldnames) (List.length row)); [lia |].
  destruct (Nat.ltb_spec (List.length row) (List.length fieldnames)); [| lia].
  assert (Hne : skipn (List.length row) fieldnames <> []).
  { intros Hnil. apply (f_equal (@List.length key)) in Hnil.
    rewrite length_skipn in Hnil. simpl in Hnil. lia. }
  destruct (exists_last Hne) as [ks [k Hks]]. rewrite Hks, fold_left_app.
  simpl. eapply dict_get_not_lowerable; [apply dict_get_set_same | reflexivity].
Qed.

(** The general form of C2's failure: one non-blank row shorter than the
    header set is enough for the import to raise. *)
Lemma import_csv_short_row (filepath : string) (fieldnames : list key)
    (rows : list (list string)) (row : list string) :
  In row rows -> row <> [] ->
  (List.length row < List.length fieldnames)%nat ->
  snd (import_csv_from_disk filepath (Parsed rows) (Some fieldnames))
  = Raise AttributeError.
Proof.
  intros Hin Hne Hlen. rewrite import_csv_parsed. cbn [snd].
  destruct (forallb all_lowerable (DictReader (Some fieldnames) rows)) eqn:E;
    [| reflexivity].
  rewrite forallb_forall in E.
  assert (Hrec : In (dictreader_row fieldnames row)
                    (DictReader (Some fieldnames) rows)).
  { apply in_map, filter_In. split; [exact Hin |]. now destruct row. }
  specialize (E _ Hrec). now rewrite (dictreader_row_short _ _ Hlen) in E.
Qed.

(** ** Export: the flat mapping *)

Lemma hashable_key_val (k : key) : hashable (key_val k) = Return k.
Proof. now destruct k. Qed.

Lemma hashable_scalar (v : pyval) :
  scalar v = true -> exists k, hashable v = Return k /\ key_val k = v.
Proof.
  destruct v; try discriminate; intros _; eexists; split; reflexivity.
Qed.

Lemma flat_loop_rows (k0 k1 : key) (v0 : pyval) (rest : dict)
    (temp_data : list pyval) :
  hashable v0 = Return k1 ->
  flat_loop rest 1 (Some [key_val k0; v0]) temp_data
  = Return (Some [key_val k0; v0],
            temp_data ++ map (vertical_row k0 k1) rest).
Proof.
  intros Hv0. revert temp_data.
  induction rest as [|[k v] rest IH]; intros temp_data.
  - simpl. now rewrite app_nil_r.
  - cbn [flat_loop flat_row Z.eqb Pos.eqb]. rewrite hashable_key_val, Hv0.
    cbn [bind]. rewrite IH. cbn [map]. now rewrite <- app_assoc.
Qed.

(** C7.  Exporting a non-empty flat mapping without [headers]: the first
    pair gives the two header names [[first_key, first_value]], and each
    later pair [(key, value)] gives exactly one row
    [{first_header: key, second_header: value}], in order.  With distinct
    header names the row has exactly these two items.  For
    [{"color": "red", "size": "large"}] the headers are
    [["color", "red"]] and the only row is
    [{"color": "size", "red": "large"}]. *)
Theorem export_flat_mapping_is_vertical_table :
  (forall (first_key : key) (first_value : pyval) (rest : dict),
      scalar first_value = true ->
      exists second_header : key,
        hashable first_value = Return second_header /\
        key_val second_header = first_value /\
        shaped_table (VDict ((first_key, first_value) :: rest)) None
        = Return (Some [key_val first_key; first_value],
                  VList (map (vertical_row first_key second_header) rest)) /\
        (key_eqb first_key second_header = false ->
         forall kv : key * pyval,
           vertical_row first_key second_header kv
           = VDict [(first_key, key_val (fst kv)); (second_header, snd kv)])) /\
  shaped_table (VDict [(KStr "color", VStr "red"); (KStr "size", VStr "large")])
    None
  = Return (Some [VStr "color"; VStr "red"],
            VList [VDict [(KStr "color", VStr "size");
                          (KStr "red", VStr "large")]]).
Proof.
  split; [| reflexivity].
  intros first_key first_value rest Hscalar.
  destruct (hashable_scalar _ Hscalar) as [k1 [Hk1 Hv]].
  exists k1. split; [exact Hk1 | split; [exact Hv | split]].
  - unfold shaped_table, deepcopy, derive_headers.
    assert (Hloop : flat_loop ((first_key, first_value) :: rest) 0 None []
                    = Return (Some [key_val first_key; first_value],
                              map (vertical_row first_key k1) rest))
      by (cbn [flat_loop Z.eqb]; now rewrite (flat_loop_rows _ _ _ _ _ Hk1)).
    destruct first_value; try discriminate; now rewrite Hloop.
  - intros Hne kv. unfold vertical_row, dict_of. simpl. now rewrite Hne.
Qed.

Lemma export_flat_mapping_is_vertical_table_witness :
  shaped_table
    (VDict [(KStr "a", VInt 1); (KStr "b", VBool true); (KStr "c", VStr "x")])
    None
  = Return (Some [VStr "a"; VInt 1],
            VList [VDict [(KStr "a", VStr "b"); (KInt 1, VBool true)];
                   VDict [(KStr "a", VStr "c"); (KInt 1, VStr "x")]]).
Proof.
  destruct export_flat_mapping_is_vertical_table as [Hflat _].
  destruct (Hflat (KStr "a") (VInt 1)
              [(KStr "b", VBool true); (KStr "c", VStr "x")] eq_refl)
    as [k1 [Hk1 [_ [Htable _]]]].
  injection Hk1 as <-. exact Htable.
Defined.

(** ** Export followed by import *)

Lemma dict_set_fresh (d : dict) (k : key) (v : pyval) :
  forallb (fun k' => negb (key_eqb k' k)) (keys d) = true ->
  dict_set d k v = d ++ [(k, v)].
Proof.
  induction d as [|[k' v'] d IH]; simpl; [reflexivity |].
  intros H. apply andb_true_iff in H as [Hne H].
  apply negb_true_iff in Hne. now rewrite Hne, (IH H).
Qed.

Lemma fold_dict_set_wf_id (pairs acc : dict) :
  dict_wf (acc ++ pairs) = true ->
  fold_left (fun d kv => dict_set d (fst kv) (snd kv)) pairs acc = acc ++ pairs.
Proof.
  revert acc. induction pairs as [|[k v] pairs IH]; intros acc Hwf; simpl.
  - now rewrite app_nil_r.
  - rewrite (dict_set_fresh _ _ _ (dict_wf_app_head _ _ _ _ Hwf)).
    rewrite IH; now rewrite <- app_assoc.
Qed.

Lemma dict_of_wf_id (pairs : dict) : dict_wf pairs = true -> dict_of pairs = pairs.
Proof. intros Hwf. apply (fold_dict_set_wf_id pairs [] Hwf). Qed.

Lemma keys_combine_names (names : list string) (vals : list pyval) (n : string) :
  ~ In n names ->
  existsb (key_eqb (KStr n)) (keys (combine (map KStr names) vals)) = false.
Proof.
  revert vals. induction names as [|m names IH]; intros [|v vals] Hn; simpl;
    try reflexivity.
  rewrite IH by (intros Hin; apply Hn; now right).
  rewrite orb_false_r. apply String.eqb_neq. intros ->. apply Hn. now left.
Qed.

Lemma combine_names_wf (names : list string) (vals : list pyval) :
  NoDup names -> dict_wf (combine (map KStr names) vals) = true.
Proof.
  intros Hnd. revert vals.
  induction Hnd as [|n names Hn _ IH]; intros [|v vals]; simpl;
    try reflexivity.
  now rewrite (keys_combine_names _ _ _ Hn), IH.
Qed.

Lemma combine_map_map {A B C : Type} (f : A -> B) (g : A -> C) (l : list A) :
  combine (map f l) (map g l) = map (fun x => (f x, g x)) l.
Proof. induction l as [|x l IH]; simpl; [reflexivity | now rewrite IH]. Qed.

Lemma hash_all_key_val (ks : list key) : hash_all (map key_val ks) = Return ks.
Proof.
  induction ks as [|k ks IH]; simpl; [reflexivity |].
  now rewrite hashable_key_val, IH.
Qed.

Lemma dict_get_header (names : list string) (n : string) :
  In n names ->
  dict_get (combine (map KStr names) (map key_val (map KStr names))) (KStr n)
  = Some (VStr n).
Proof.
  induction names as [|m names IH]; simpl; [contradiction |].
  intros Hin. destruct (String.eqb_spec m n) as [-> | Hne]; [reflexivity |].
  apply IH. destruct Hin as [-> | Hin]; [contradiction | exact Hin].
Qed.

Section RoundTrip.

Variable container_repr : pyval -> string.

Lemma dict_to_list_dict (fieldnames : list key) (items : dict) :
  dict_to_list container_repr fieldnames (VDict items)
  = Return (map (fun k =>
                   written_cell container_repr
                     (dict_get_default items k (VStr "")))
                fieldnames).
Proof. now destruct fieldnames. Qed.

Lemma writeheader_names (names : list string) :
  NoDup names ->
  writeheader container_repr (Some (map key_val (map KStr names)))
  = Return (map KStr names, names).
Proof.
  intros Hnd. unfold writeheader. rewrite hash_all_key_val. cbn [bind].
  rewrite dict_to_list_dict. cbn [bind].
  rewrite (dict_of_wf_id _ (combine_names_wf names _ Hnd)).
  do 2 f_equal. rewrite map_map.
  rewrite <- (map_id names) at 2. apply map_ext_in. intros a Ha.
  unfold dict_get_default. now rewrite (dict_get_header _ _ Ha).
Qed.

Lemma write_rows_dicts (names : list string) (originals : list dict) :
  write_rows container_repr (map KStr names) false (map VDict originals)
  = Return (map (written_cells container_repr names) originals).
Proof.
  induction originals as [|d ds IH]; [reflexivity |].
  cbn [map write_rows bind]. rewrite IH, dict_to_list_dict. cbn [bind].
  unfold written_cells. now rewrite map_map.
Qed.

Lemma dictreader_row_cells (names : list string) (original : dict) :
  NoDup names ->
  dictreader_row (map KStr names) (written_cells container_repr names original)
  = map (fun name =>
           (KStr name,
            VStr (written_cell container_repr
                    (dict_get_default original (KStr name) (VStr "")))))
        names.
Proof.
  intros Hnd. unfold dictreader_row, written_cells.
  rewrite !length_map, Nat.ltb_irrefl.
  rewrite (dict_of_wf_id _ (combine_names_wf names _ Hnd)).
  now rewrite map_map, combine_map_map.
Qed.

(** The file written for a non-empty sequence of mappings whose first
    mapping has the distinct text keys [names]: the header, then the
    cells of each mapping. *)
Lemma export_writes_cells
    (filepath : string) (delimiter : ascii) (names : list string)
    (first : dict) (rest : list dict) :
  NoDup names -> keys first = map KStr names ->
  snd (export_csv_data_to_disk container_repr filepath
         (VList (map VDict (first :: rest))) delimiter None false)
  = Return (Some {| file_path := filepath;
                    file_delimiter := delimiter;
                    file_rows := names :: map (written_cells container_repr names)
                                              (first :: rest) |}).
Proof.
  intros Hnd Hkeys.
  unfold export_csv_data_to_disk.
  cbn [map truthy List.length Nat.eqb negb snd].
  unfold shaped_table, deepcopy. cbn [derive_headers iterate bind].
  rewrite Hkeys, (writeheader_names _ Hnd). cbn [bind].
  change (VDict first :: map VDict rest) with (map VDict (first :: rest)).
  rewrite (write_rows_dicts names (first :: rest)). reflexivity.
Qed.

(** C4, as the code has it.  A non-empty sequence of mappings whose first
    mapping has distinct text keys, at least one, is written with those
    keys as header.  Whenever the [csv] module reads back from the file
    written the rows of cells its writer was given, the import gives one
    mapping per original, with the header names as keys: each value is
    the cell text of the original value (text as it is, [True]/[False]
    for booleans, [str] of any other value, the empty string for [None]
    and for a missing key) after the importer's boolean normalization; a
    sequence of one mapping comes back as that mapping alone. *)
Theorem export_then_import_gives_normalized_cell_text
    (reread : csv_file -> csv_source)
    (filepath : string) (delimiter : ascii) (names : list string)
    (first : dict) (rest : list dict) :
  names <> [] -> NoDup names -> keys first = map KStr names ->
  (forall file : csv_file,
      snd (export_csv_data_to_disk container_repr filepath
             (VList (map VDict (first :: rest))) delimiter None false)
      = Return (Some file) ->
      reads_back reread file) ->
  export_then_import container_repr reread filepath
    (VList (map VDict (first :: rest))) delimiter
  = collapse (Some (map (reimported_record container_repr names)
                        (first :: rest))).
Proof.
  intros Hne Hnd Hkeys Hread.
  unfold export_then_import.
  rewrite (export_writes_cells filepath delimiter names first rest Hnd Hkeys)
    in Hread |- *.
  cbn [bind file_path]. rewrite (Hread _ eq_refl). cbn [file_rows].
  rewrite import_csv_parsed. cbn [snd DictReader].
  assert (Hfilter : filter nonblank (map (written_cells container_repr names) (first :: rest))
                    = map (written_cells container_repr names) (first :: rest)).
  { apply forallb_filter_id, forallb_forall. intros row Hin.
    apply in_map_iff in Hin as [d [<- _]].
    destruct names; [contradiction | reflexivity]. }
  rewrite Hfilter, map_map.
  assert (Hrows : map (fun d => dictreader_row (map KStr names) (written_cells container_repr names d))
                      (first :: rest)
                  = map (fun d =>
                           map (fun name =>
                                  (KStr name,
                                   VStr (written_cell container_repr
                                           (dict_get_default d (KStr name)
                                              (VStr "")))))
                               names)
                        (first :: rest)).
  { apply map_ext. intros d. now apply dictreader_row_cells. }
  rewrite Hrows.
  assert (Hlow : forallb all_lowerable
                   (map (fun d =>
                           map (fun name =>
                                  (KStr name,
                                   VStr (written_cell container_repr
                                           (dict_get_default d (KStr name)
                                              (VStr "")))))
                               names)
                        (first :: rest)) = true).
  { apply forallb_forall. intros r Hin. apply in_map_iff in Hin as [d [<- _]].
    unfold all_lowerable, values. rewrite map_map.
    apply forallb_forall. intros v Hv.
    apply in_map_iff in Hv as [name [<- _]]. reflexivity. }
  rewrite Hlow, map_map.
  change (reimported_record container_repr names first
          :: map (reimported_record container_repr names) rest)
    with (map (reimported_record container_repr names) (first :: rest)).
  apply f_equal, f_equal, map_ext. intros d.
  unfold reimported_record. now rewrite map_map.
Qed.

End RoundTrip.

(** The file of this run holds the lines [n,ok,s], [1,True,x] and
    [-2,FALSE,], three comma-separated columns without a quote. *)
Lemma export_then_import_gives_normalized_cell_text_witness :
  export_then_import opaque_repr cells_read_back "t.csv"
    (VList [VDict [(KStr "n", VInt 1); (KStr "ok", VBool true);
                   (KStr "s", VStr "x")];
            VDict [(KStr "n", VInt (-2)); (KStr "ok", VStr "FALSE")]])
    ","
  = Return
      (VList [VDict [(KStr "n", VStr "1"); (KStr "ok", VBool true);
                     (KStr "s", VStr "x")];
              VDict [(KStr "n", VStr "-2"); (KStr "ok", VBool false);
                     (KStr "s", VStr "")]]).
Proof.
  assert (Hne : ["n"; "ok"; "s"] <> []) by discriminate.
  assert (Hnd : NoDup ["n"; "ok"; "s"]).
  { repeat constructor; simpl; intuition discriminate. }
  exact (export_then_import_gives_normalized_cell_text opaque_repr
           cells_read_back "t.csv" ","
           ["n"; "ok"; "s"]
           [(KStr "n", VInt 1); (KStr "ok", VBool true); (KStr "s", VStr "x")]
           [[(KStr "n", VInt (-2)); (KStr "ok", VStr "FALSE")]]
           Hne Hnd eq_refl (fun file _ => eq_refl)).
Defined.

(** Whatever the file holds, an import that returns holds text, booleans
    and lists of surplus cells, and nothing else. *)
Lemma import_csv_values (filepath : string) (f : csv_source)
    (headers : option (list key)) (v : pyval) :
  snd (import_csv_from_disk filepath f headers) = Return v ->
  Forall (fun record => forallb imported_value (values record) = true)
         (records_of v).
Proof.
  destruct f as [| |rows]; [discriminate | discriminate |].
  rewrite import_csv_parsed. cbn [snd].
  destruct (forallb all_lowerable (DictReader headers rows)) eqn:Hlow;
    [| discriminate].
  intros Hv. rewrite (records_of_collapse _ _ Hv).
  apply Forall_forall. intros record Hin.
  apply in_map_iff in Hin as [read [<- Hin]].
  rewrite forallb_forall in Hlow. specialize (Hlow _ Hin).
  unfold all_lowerable in Hlow. rewrite forallb_forall in Hlow.
  apply forallb_forall. intros x Hx.
  unfold values in Hx. rewrite map_map in Hx.
  apply in_map_iff in Hx as [[k c] [<- Hkc]].
  assert (Hc : lowerable c = true).
  { apply Hlow. unfold values. apply in_map_iff. now exists (k, c). }
  cbn [coerce_item fst snd].
  destruct c as [| | |s| |]; try discriminate; [| reflexivity].
  unfold coerce.
  destruct (Text.lower s =? "true")%string; [reflexivity |].
  now destruct (Text.lower s =? "false")%string.
Qed.

(** The claim of C4 fails as stated: these uniform mappings hold no
    boolean and lack no field, yet what comes back differs from them.
    When the cells are read back as written the numbers are text and
    [None] is the empty string; and whatever the [csv] module makes of
    the file, the import does not return the originals, since it returns
    no number. *)
Lemma export_then_import_changes_values :
  let data := VList [VDict [(KStr "n", VInt 1); (KStr "z", VNone)];
                     VDict [(KStr "n", VInt 2); (KStr "z", VNone)]] in
  export_then_import opaque_repr cells_read_back "t.csv" data ","
  = Return (VList [VDict [(KStr "n", VStr "1"); (KStr "z", VStr "")];
                   VDict [(KStr "n", VStr "2"); (KStr "z", VStr "")]]) /\
  forall reread : csv_file -> csv_source,
    export_then_import opaque_repr reread "t.csv" data "," <> Return data.
Proof.
  split; [reflexivity |].
  intros reread Hback.
  unfold export_then_import in Hback.
  cbn [export_csv_data_to_disk] in Hback.
  apply import_csv_values in Hback.
  inversion Hback as [|record records Hfirst _]. discriminate Hfirst.
Qed.

(** ** The exporter and the caller's objects *)

Module HeapFacts.

Import Heap.

Lemma same_below_refl (n : nat) (h : heap) : same_below n h h.
Proof. now intros l _. Qed.

Lemma same_below_trans (n : nat) (h1 h2 h3 : heap) :
  same_below n h1 h2 -> same_below n h2 h3 -> same_below n h1 h3.
Proof. intros H12 H23 l Hl. now rewrite (H23 l Hl), (H12 l Hl). Qed.

Lemma keeps_ret {A : Type} (n : nat) (a : A) (Q : A -> Prop) :
  Q a -> keeps n (ret a) Q.
Proof. intros Ha h Hh. simpl. auto using same_below_refl. Qed.

Lemma keeps_raise {A : Type} (n : nat) (e : exn) (Q : A -> Prop) :
  keeps n (raise e) Q.
Proof. intros h Hh. simpl. auto using same_below_refl. Qed.

Lemma keeps_bind {A B : Type} (n : nat) (m : M A) (f : A -> M B)
    (P : A -> Prop) (Q : B -> Prop) :
  keeps n m P -> (forall a, P a -> keeps n (f a) Q) ->
  keeps n (mbind m f) Q.
Proof.
  intros Hm Hf h Hh. unfold mbind.
  destruct (Hm h Hh) as [Hc [Hs Hp]].
  destruct (m h) as [h1 [a | e]]; simpl in *.
  - destruct (Hf a Hp h1 Hc) as [Hc' [Hs' Hq]].
    eauto using same_below_trans.
  - auto.
Qed.

Lemma keeps_weaken {A : Type} (n : nat) (m : M A) (P Q : A -> Prop) :
  keeps n m P -> (forall a, P a -> Q a) -> keeps n m Q.
Proof.
  intros Hm HPQ h Hh. destruct (Hm h Hh) as [Hc [Hs Hp]].
  split; [exact Hc | split; [exact Hs |]].
  destruct (snd (m h)); auto.
Qed.

(** A computation that only looks at the store. *)
Lemma keeps_look {A : Type} (n : nat) (g : heap -> result A) :
  keeps n (fun h => (h, g h)) (fun _ => True).
Proof.
  intros h Hh. simpl. split; [exact Hh | split; [apply same_below_refl |]].
  now destruct (g h).
Qed.

(** A computation whose parameter is read off the store. *)
Lemma keeps_dep {A B : Type} (n : nat) (g : heap -> B) (m : B -> M A)
    (Q : A -> Prop) :
  (forall b, keeps n (m b) Q) -> keeps n (fun h => m (g h) h) Q.
Proof. intros Hm h Hh. exact (Hm (g h) h Hh). Qed.

Lemma keeps_read (n : nat) (l : loc) :
  keeps n (read l) (fun o => (n <= l)%nat -> new_obj n o).
Proof.
  intros h Hh. unfold read.
  destruct (nth_error h l) as [o|] eqn:E; simpl;
    (split; [exact Hh | split; [apply same_below_refl |]]); [| exact I].
  intros Hl. exact (proj2 Hh l o Hl E).
Qed.

Lemma keeps_alloc (n : nat) (o : obj) :
  new_obj n o -> keeps n (alloc o) (fun l => (n <= l)%nat).
Proof.
  intros Ho h [Hlen Hcl]. unfold alloc. simpl.
  split; [split |]; [rewrite length_app; simpl; lia | | split; [| exact Hlen]].
  - intros l o' Hl Hget.
    destruct (Nat.lt_ge_cases l (List.length h)) as [Hlt | Hge].
    + rewrite nth_error_app1 in Hget by exact Hlt. exact (Hcl l o' Hl Hget).
    + rewrite nth_error_app2 in Hget by exact Hge.
      destruct (l - List.length h)%nat as [|[|i]]; simpl in Hget;
        try discriminate.
      now injection Hget as <-.
  - intros l Hl. apply nth_error_app1. lia.
Qed.

Lemma length_update (h : heap) (l : loc) (o : obj) :
  List.length (update h l o) = List.length h.
Proof.
  revert l. induction h as [|o' h IH]; intros [|l]; simpl; auto.
Qed.

Lemma nth_error_update_other (h : heap) (l l' : loc) (o : obj) :
  l' <> l -> nth_error (update h l o) l' = nth_error h l'.
Proof.
  revert l l'. induction h as [|o' h IH]; intros [|l] [|l'] Hne; simpl;
    try reflexivity; try contradiction.
  apply IH. congruence.
Qed.

Lemma nth_error_update_same (h : heap) (l : loc) (o o' : obj) :
  nth_error (update h l o) l = Some o' -> o' = o.
Proof.
  revert l. induction h as [|o0 h IH]; intros [|l]; simpl; try discriminate.
  - now intros [= <-].
  - apply IH.
Qed.

Lemma keeps_write (n : nat) (l : loc) (o : obj) :
  (n <= l)%nat -> new_obj n o -> keeps n (write l o) (fun _ => True).
Proof.
  intros Hl Ho h [Hlen Hcl]. unfold write. simpl.
  split; [split |]; [now rewrite length_update | | split; [| exact I]].
  - intros l' o' Hl' Hget. destruct (Nat.eq_dec l' l) as [-> | Hne].
    + now rewrite (nth_error_update_same _ _ _ _ Hget).
    + rewrite nth_error_update_other in Hget by exact Hne.
      exact (Hcl l' o' Hl' Hget).
  - intros l' Hl'. apply nth_error_update_other. lia.
Qed.

Lemma new_val_of_key (n : nat) (k : key) : new_val n (of_key k).
Proof. now destruct k. Qed.

Lemma new_items_set (n : nat) (items : list (key * val)) (k : key) (v : val) :
  Forall (fun kv => new_val n (snd kv)) items -> new_val n v ->
  Forall (fun kv => new_val n (snd kv)) (items_set items k v).
Proof.
  intros Hitems Hv. induction Hitems as [|[k' v'] items Hv' Hrest IH]; simpl.
  - now constructor.
  - destruct (key_eqb k' k); constructor; assumption.
Qed.

Lemma keeps_append_at (n : nat) (y : loc) (a : val) :
  (n <= y)%nat -> new_val n a -> keeps n (append_at y a) (fun _ => True).
Proof.
  intros Hy Ha. unfold append_at.
  eapply keeps_bind; [apply keeps_read |].
  intros [items | items] Ho; [| apply keeps_raise].
  apply keeps_write; [exact Hy |].
  simpl. apply Forall_app. split; [exact (Ho Hy) | now constructor].
Qed.

Lemma keeps_setitem_at (n : nat) (y : loc) (k : key) (a : val) :
  (n <= y)%nat -> new_val n a -> keeps n (setitem_at y k a) (fun _ => True).
Proof.
  intros Hy Ha. unfold setitem_at.
  eapply keeps_bind; [apply keeps_read |].
  intros [items | items] Ho; [apply keeps_raise |].
  apply keeps_write; [exact Hy |].
  simpl. apply new_items_set; [exact (Ho Hy) | exact Ha].
Qed.

Lemma memo_get_new (n : nat) (memo : list (loc * loc)) (l y : loc) :
  new_memo n memo -> memo_get memo l = Some y -> (n <= y)%nat.
Proof.
  induction 1 as [|[x z] memo Hz _ IH]; simpl; [discriminate |].
  destruct (Nat.eqb x l); [now intros [= <-] | exact IH].
Qed.

Section Copy.

Variable n : nat.
Variable copy : list (loc * loc) -> val -> M (list (loc * loc) * val).
Hypothesis keeps_copy :
  forall memo a, new_memo n memo -> keeps n (copy memo a) (copied n).

Lemma keeps_fill_list (y : loc) (todo : list val) (memo : list (loc * loc)) :
  (n <= y)%nat -> new_memo n memo ->
  keeps n (fill_list copy y todo memo) (copied n).
Proof.
  intros Hy. revert memo. induction todo as [|a todo IH]; intros memo Hm.
  - apply keeps_ret. now split.
  - cbn [fill_list]. eapply keeps_bind; [now apply keeps_copy |].
    intros [memo' a'] [Hm' Ha'].
    eapply keeps_bind; [now apply keeps_append_at |].
    intros _ _. now apply IH.
Qed.

Lemma keeps_fill_dict (y : loc) (todo : list (key * val))
    (memo : list (loc * loc)) :
  (n <= y)%nat -> new_memo n memo ->
  keeps n (fill_dict copy y todo memo) (copied n).
Proof.
  intros Hy. revert memo. induction todo as [|[k a] todo IH]; intros memo Hm.
  - apply keeps_ret. now split.
  - cbn [fill_dict]. eapply keeps_bind; [now apply keeps_copy |].
    intros [memo' a'] [Hm' Ha'].
    eapply keeps_bind; [now apply keeps_setitem_at |].
    intros _ _. now apply IH.
Qed.

End Copy.

(** [deepcopy] writes only into the objects it creates, and what it
    returns refers to none of the objects that were there before. *)
Lemma keeps_deepcopy (n depth : nat) (memo : list (loc * loc)) (x : val) :
  new_memo n memo -> keeps n (deepcopy depth memo x) (copied n).
Proof.
  revert memo x. induction depth as [|depth IH]; intros memo x Hm;
    destruct x as [| b | z | s | l]; cbn [deepcopy];
    try (apply keeps_ret; now split).
  - destruct (memo_get memo l) as [y|] eqn:E; [| apply keeps_raise].
    apply keeps_ret. split; [exact Hm | exact (memo_get_new _ _ _ _ Hm E)].
  - destruct (memo_get memo l) as [y|] eqn:E.
    + apply keeps_ret. split; [exact Hm | exact (memo_get_new _ _ _ _ Hm E)].
    + eapply keeps_bind; [apply keeps_read |].
      intros [items | items] _.
      * eapply keeps_bind; [apply keeps_alloc; constructor |].
        intros y Hy. apply keeps_fill_list; [exact IH | exact Hy |].
        now constructor.
      * eapply keeps_bind; [apply keeps_alloc; constructor |].
        intros y Hy. apply keeps_fill_dict; [exact IH | exact Hy |].
        now constructor.
Qed.

Section Shaper.

Variable container_repr : heap -> val -> string.
Variable n : nat.

Lemma keeps_truthy (v : val) : keeps n (truthy v) (fun _ => True).
Proof.
  destruct v; cbn [truthy]; try now apply keeps_ret.
  eapply keeps_bind; [apply keeps_read |].
  intros [items | items] _; now apply keeps_ret.
Qed.

Lemma new_vals_of_keys (ks : list key) : Forall (new_val n) (map of_key ks).
Proof.
  induction ks as [|k ks IH]; constructor; [apply new_val_of_key | exact IH].
Qed.

Lemma keeps_iterate (v : val) :
  keeps n (iterate v) (fun items => new_val n v -> Forall (new_val n) items).
Proof.
  destruct v; cbn [iterate]; try apply keeps_raise.
  - apply keeps_ret. intros _.
    induction (list_ascii_of_string s) as [|c cs IH]; constructor;
      [exact I | exact IH].
  - eapply keeps_bind; [apply keeps_read |].
    intros [items | items] Ho; apply keeps_ret; intros Hl.
    + exact (Ho Hl).
    + apply new_vals_of_keys.
Qed.

Lemma keeps_is_dict (v : val) : keeps n (is_dict v) (fun _ => True).
Proof.
  destruct v; cbn [is_dict]; try now apply keeps_ret.
  eapply keeps_bind; [apply keeps_read |].
  intros [items | items] _; now apply keeps_ret.
Qed.

Lemma keeps_getitem0 (v : val) : keeps n (getitem0 v) (fun _ => True).
Proof.
  destruct v; cbn [getitem0]; try apply keeps_raise.
  - destruct s; [apply keeps_raise | now apply keeps_ret].
  - eapply keeps_bind; [apply keeps_read |].
    intros [[|first items] | items] _;
      [apply keeps_raise | now apply keeps_ret |].
    destruct (items_get items (KInt 0)); [now apply keeps_ret | apply keeps_raise].
Qed.

Lemma keeps_flat_row (headers : option (list val)) (k : key) (v : val) :
  new_val n v -> keeps n (flat_row headers k v) (new_val n).
Proof.
  intros Hv. unfold flat_row.
  destruct headers as [[|h0 [|h1 rest]]|]; try apply keeps_raise.
  destruct (hash h0) as [k0|e0]; [| apply keeps_raise].
  destruct (hash h1) as [k1|e1]; [| apply keeps_raise].
  eapply keeps_bind.
  - apply keeps_alloc. cbn [new_obj].
    apply new_items_set; [apply new_items_set; [constructor |] |];
      [apply new_val_of_key | exact Hv].
  - intros l Hl. now apply keeps_ret.
Qed.

Lemma keeps_flat_loop (todo : list (key * val)) (count : Z)
    (headers : option (list val)) (temp_data : loc) :
  Forall (fun kv => new_val n (snd kv)) todo -> (n <= temp_data)%nat ->
  keeps n (flat_loop todo count headers temp_data) (fun _ => True).
Proof.
  intros Htodo Ht. revert count headers.
  induction Htodo as [|[k v] todo Hv _ IH]; intros count headers;
    cbn [flat_loop]; [now apply keeps_ret |].
  destruct (count =? 0); [apply IH |].
  eapply keeps_bind; [apply keeps_flat_row; exact Hv |].
  intros row Hrow.
  eapply keeps_bind; [now apply keeps_append_at |].
  intros _ _. apply IH.
Qed.

Lemma keeps_derive_headers (data to_export_data : val) :
  new_val n to_export_data ->
  keeps n (derive_headers data to_export_data) (fun r => new_val n (snd r)).
Proof.
  intros Hx. unfold derive_headers.
  destruct to_export_data as [| b | z | s | l]; try now apply keeps_ret.
  eapply keeps_bind; [apply keeps_read |].
  intros [items | [|[k v] items]] Ho.
  - eapply keeps_bind; [apply keeps_getitem0 |]. intros first _.
    eapply keeps_bind; [apply keeps_iterate |]. intros headers _.
    now apply keeps_ret.
  - apply keeps_raise.
  - specialize (Ho Hx). cbn [new_obj] in Ho.
    eapply keeps_bind; [apply keeps_is_dict |]. intros [|] _.
    + eapply keeps_bind; [apply keeps_iterate |]. intros headers _.
      eapply keeps_bind.
      * apply keeps_alloc. cbn [new_obj]. apply Forall_map. exact Ho.
      * intros rows Hrows. now apply keeps_ret.
    + eapply keeps_bind; [apply keeps_alloc; constructor |].
      intros temp_data Ht.
      eapply keeps_bind; [now apply keeps_flat_loop |].
      intros headers _. now apply keeps_ret.
Qed.

Lemma keeps_writeheader (headers : option (list val)) :
  keeps n (writeheader container_repr headers) (fun _ => True).
Proof.
  unfold writeheader. destruct headers as [names|]; [| apply keeps_raise].
  destruct (hash_all names) as [fieldnames|e]; [| apply keeps_raise].
  apply (keeps_look n (fun h => Return (fieldnames, _))).
Qed.

Lemma keeps_dict_to_list (fieldnames : list key) (rowdict : val) :
  keeps n (dict_to_list container_repr fieldnames rowdict) (fun _ => True).
Proof.
  unfold dict_to_list. destruct fieldnames as [|k ks]; [now apply keeps_ret |].
  destruct rowdict; try apply keeps_raise.
  eapply keeps_bind; [apply keeps_read |].
  intros [items | items] _; [apply keeps_raise |].
  apply (keeps_look n (fun h => Return _)).
Qed.

Lemma keeps_trim_loop (item : loc) (todo : list (key * val)) :
  (n <= item)%nat ->
  keeps n (trim_loop container_repr item todo) (fun _ => True).
Proof.
  intros Hitem. induction todo as [|[key val] todo IH]; cbn [trim_loop];
    [now apply keeps_ret |].
  eapply keeps_bind; [| intros _ _; exact IH].
  apply (keeps_dep n
           (fun h => enforce_excel_cell_string_limit
                       (py_str container_repr h val) 32750)
           (fun s => setitem_at item key (Str s))).
  intros s. now apply keeps_setitem_at.
Qed.

Lemma keeps_trim_item (item : val) :
  new_val n item -> keeps n (trim_item container_repr item) (fun _ => True).
Proof.
  intros Hitem. unfold trim_item. destruct item; try apply keeps_raise.
  eapply keeps_bind; [apply keeps_read |].
  intros [items | items] _; [apply keeps_raise | now apply keeps_trim_loop].
Qed.

Lemma keeps_write_rows (fieldnames : list key) (trim_long_strings : bool)
    (todo : list val) :
  Forall (new_val n) todo ->
  keeps n (write_rows container_repr fieldnames trim_long_strings todo)
        (fun _ => True).
Proof.
  induction 1 as [|item todo Hitem _ IH]; cbn [write_rows];
    [now apply keeps_ret |].
  eapply keeps_bind.
  - destruct trim_long_strings;
      [now apply keeps_trim_item | now apply (keeps_ret n tt (fun _ => True))].
  - intros _ _. eapply keeps_bind; [apply keeps_dict_to_list |].
    intros row _. eapply keeps_bind; [exact IH |].
    intros rows _. now apply keeps_ret.
Qed.

(** Every write of the exporter lands in an object created during the
    call. *)
Lemma keeps_export (depth : nat) (filepath : string) (data : val)
    (delimiter : ascii) (headers : option (list val))
    (trim_long_strings : bool) :
  keeps n
    (Heap.export_csv_data_to_disk container_repr depth filepath data
       delimiter headers trim_long_strings)
    (fun _ => True).
Proof.
  unfold Heap.export_csv_data_to_disk.
  eapply keeps_bind; [apply keeps_truthy |]. intros nonempty _.
  destruct (negb nonempty); [now apply keeps_ret |].
  eapply keeps_bind; [apply keeps_deepcopy; constructor |].
  intros [memo to_export_data] [_ Hx]. simpl in Hx.
  eapply keeps_bind
    with (P := fun r : option (list val) * val => new_val n (snd r)).
  - destruct headers; [now apply keeps_ret | now apply keeps_derive_headers].
  - intros [headers' to_export_data'] Hx'. simpl in Hx'.
    eapply keeps_bind; [apply keeps_writeheader |].
    intros [fieldnames header_row] _.
    eapply keeps_bind; [apply keeps_iterate |]. intros items Hitems.
    eapply keeps_bind; [apply keeps_write_rows; exact (Hitems Hx') |].
    intros rows _. now apply keeps_ret.
Qed.

End Shaper.

(** A tree read from the store is read again, unchanged, from any store
    that still holds the same objects at the same places. *)
Lemma reify_frame (h h' : heap) :
  (forall l o, nth_error h l = Some o -> nth_error h' l = Some o) ->
  forall (depth : nat) (x : val) (t : pyval),
    reify depth h x = Some t -> reify depth h' x = Some t.
Proof.
  intros Hsame depth.
  induction depth as [|depth IH]; intros x t; destruct x as [| b | z | s | l];
    cbn [reify]; auto.
  destruct (nth_error h l) as [o|] eqn:E; [| discriminate].
  rewrite (Hsame _ _ E). clear E. destruct o as [items | items].
  - match goal with
    | |- option_map _ (?f items) = _ -> option_map _ (?g items) = _ =>
        assert (Hall : forall ts, f items = Some ts -> g items = Some ts)
    end.
    { induction items as [|v items IHitems]; intros ts; [auto |].
      destruct (reify depth h v) as [tv|] eqn:Ev; [| discriminate].
      rewrite (IH _ _ Ev).
      match goal with
      | |- match ?f items with _ => _ end = _ -> _ =>
          destruct (f items) as [tvs|] eqn:Eall; [| discriminate]
      end.
      now rewrite (IHitems _ eq_refl). }
    match goal with
    | |- option_map _ (?f items) = _ -> _ =>
        destruct (f items) as [ts|] eqn:Ets; [| discriminate]
    end.
    now rewrite (Hall _ eq_refl).
  - match goal with
    | |- option_map _ (?f items) = _ -> option_map _ (?g items) = _ =>
        assert (Hall : forall ts, f items = Some ts -> g items = Some ts)
    end.
    { induction items as [|[k v] items IHitems]; intros ts; [auto |].
      destruct (reify depth h v) as [tv|] eqn:Ev; [| discriminate].
      rewrite (IH _ _ Ev).
      match goal with
      | |- match ?f items with _ => _ end = _ -> _ =>
          destruct (f items) as [tvs|] eqn:Eall; [| discriminate]
      end.
      now rewrite (IHitems _ eq_refl). }
    match goal with
    | |- option_map _ (?f items) = _ -> _ =>
        destruct (f items) as [ts|] eqn:Ets; [| discriminate]
    end.
    now rewrite (Hall _ eq_refl).
Qed.

(** C9.  Whatever the value, the header argument and the trimming
    option, and whether the export completes or raises, every object of
    the store that existed before the call is the same object afterwards:
    all writes go to the deep copy and to the rows built from it.  So any
    structure the caller holds reads back as the same tree, nested
    mappings and values included. *)
Theorem export_csv_keeps_callers_objects
    (container_repr : heap -> val -> string) (depth : nat)
    (filepath : string) (data : val) (delimiter : ascii)
    (headers : option (list val)) (trim_long_strings : bool) (h : heap) :
  let h' :=
    fst (Heap.export_csv_data_to_disk container_repr depth filepath data
           delimiter headers trim_long_strings h) in
  (forall (l : loc) (o : obj),
      nth_error h l = Some o -> nth_error h' l = Some o) /\
  (forall (d : nat) (x : val) (t : pyval),
      reify d h x = Some t -> reify d h' x = Some t).
Proof.
  intros h'.
  assert (Hsame : forall l o, nth_error h l = Some o -> nth_error h' l = Some o).
  { intros l o Hget.
    assert (Hclosed : closed_above (List.length h) h).
    { split; [lia |]. intros l' o' Hl' Hget'.
      apply nth_error_None in Hl'. congruence. }
    destruct (keeps_export container_repr (List.length h) depth filepath data
                delimiter headers trim_long_strings h Hclosed)
      as [_ [Hbelow _]].
    unfold h'. rewrite Hbelow; [exact Hget |].
    apply nth_error_Some. congruence. }
  split; [exact Hsame | exact (reify_frame h h' Hsame)].
Qed.

(** Two rows sharing one dict, exported with trimming: the copy is
    rewritten as text, the caller's list and dict still hold the number. *)
Lemma export_csv_keeps_callers_objects_witness :
  let h := [Dict [(KStr "x", Int 1); (KStr "y", Str "s")];
            List [Ref 0%nat; Ref 0%nat]] in
  let h' := fst (Heap.export_csv_data_to_disk opaque_repr 10 "o.csv"
                   (Ref 1%nat) "," None true h) in
  reify 3 h' (Ref 1%nat)
  = Some (VList [VDict [(KStr "x", VInt 1); (KStr "y", VStr "s")];
                 VDict [(KStr "x", VInt 1); (KStr "y", VStr "s")]]) /\
  nth_error h' 3 = Some (Dict [(KStr "x", Str "1"); (KStr "y", Str "s")]).
Proof.
  intros h h'. split; [| reflexivity].
  apply (export_csv_keeps_callers_objects opaque_repr 10 "o.csv" (Ref 1%nat)
           "," None true h).
  reflexivity.
Defined.

End HeapFacts.

(** * Further properties of the exporter *)

Section Writer.

Variable container_repr : pyval -> string.

Lemma dict_to_list_length (fieldnames : list key) (rowdict : pyval)
    (row : list string) :
  dict_to_list container_repr fieldnames rowdict = Return row ->
  List.length row = List.length fieldnames.
Proof.
  unfold dict_to_list. destruct fieldnames as [|k ks].
  - now intros [= <-].
  - destruct rowdict; try discriminate.
    intros [= <-]. simpl. now rewrite length_map.
Qed.

Lemma hash_all_length (names : list pyval) (ks : list key) :
  hash_all names = Return ks -> List.length ks = List.length names.
Proof.
  revert ks. induction names as [|v names IH]; intros ks; simpl.
  - now intros [= <-].
  - destruct (hashable v) as [k|e]; [| discriminate]. cbn [bind].
    destruct (hash_all names) as [ks'|e]; [| discriminate]. cbn [bind].
    intros [= <-]. simpl. now rewrite (IH _ eq_refl).
Qed.

Lemma writeheader_length (headers : option (list pyval)) (ks : list key)
    (row : list string) :
  writeheader container_repr headers = Return (ks, row) ->
  List.length row = List.length ks /\
  exists names, headers = Some names /\ List.length names = List.length ks.
Proof.
  unfold writeheader. destruct headers as [names|]; [| discriminate].
  destruct (hash_all names) as [ks'|e] eqn:Eh; [| discriminate]. cbn [bind].
  destruct (dict_to_list container_repr ks' _) as [row'|e] eqn:Ed;
    [| discriminate].
  cbn [bind]. intros [= <- <-]. split.
  - exact (dict_to_list_length _ _ _ Ed).
  - exists names. split; [reflexivity |].
    symmetry. exact (hash_all_length _ _ Eh).
Qed.

Lemma write_rows_shape (ks : list key) (trim_long_strings : bool)
    (todo : list pyval) (rows : list (list string)) :
  write_rows container_repr ks trim_long_strings todo = Return rows ->
  List.length rows = List.length todo /\
  Forall (fun row => List.length row = List.length ks) rows.
Proof.
  revert rows. induction todo as [|item todo IH]; intros rows; cbn [write_rows].
  - intros [= <-]. split; [reflexivity | constructor].
  - destruct (if trim_long_strings then trim_item container_repr item
              else Return item) as [item'|e]; [| discriminate].
    cbn [bind].
    destruct (dict_to_list container_repr ks item') as [row|e] eqn:Ed;
      [| discriminate].
    cbn [bind].
    destruct (write_rows container_repr ks trim_long_strings todo)
      as [rows'|e]; [| discriminate].
    cbn [bind]. intros [= <-]. destruct (IH _ eq_refl) as [Hlen Hall].
    split; [simpl; now rewrite Hlen |].
    constructor; [exact (dict_to_list_length _ _ _ Ed) | exact Hall].
Qed.

(** X1.  Whatever is exported, under any [headers] and trimming option:
    when a file is written, nothing was printed, the file has the path
    and delimiter asked for, its first row is the header, and every data
    row has exactly as many cells as the header. *)
Theorem export_csv_writes_a_rectangle
    (filepath : string) (data : pyval) (delimiter : ascii)
    (headers : option (list pyval)) (trim_long_strings : bool)
    (printed : list string) (file : csv_file) :
  export_csv_data_to_disk container_repr filepath data delimiter headers
    trim_long_strings
  = (printed, Return (Some file)) ->
  printed = [] /\
  file_path file = filepath /\
  file_delimiter file = delimiter /\
  exists (header_row : list string) (rows : list (list string)),
    file_rows file = header_row :: rows /\
    Forall (fun row => List.length row = List.length header_row) rows.
Proof.
  unfold export_csv_data_to_disk.
  destruct (negb (truthy data)); [discriminate |].
  destruct (shaped_table data headers) as [[headers' to_export_data]|e];
    [| discriminate].
  cbn [bind].
  destruct (writeheader container_repr headers') as [[ks header_row]|e] eqn:Eh;
    [| discriminate].
  cbn [bind].
  destruct (iterate to_export_data) as [items|e]; [| discriminate].
  cbn [bind].
  destruct (write_rows container_repr ks trim_long_strings items)
    as [rows|e] eqn:Er; [| discriminate].
  cbn [bind]. intros [= <- <-]. cbn [file_path file_delimiter file_rows].
  split; [reflexivity | split; [reflexivity | split; [reflexivity |]]].
  exists header_row, rows. split; [reflexivity |].
  destruct (writeheader_length _ _ _ Eh) as [Hh _].
  destruct (write_rows_shape _ _ _ _ Er) as [_ Hall].
  rewrite Hh. exact Hall.
Qed.

End Writer.

Lemma export_csv_writes_a_rectangle_witness :
  exists (header_row : list string) (rows : list (list string)),
    [["x"; "y"]; ["1"; ""]; ["2"; "b"]] = header_row :: rows /\
    Forall (fun row => List.length row = List.length header_row) rows.
Proof.
  refine (proj2 (proj2 (proj2
    (export_csv_writes_a_rectangle opaque_repr "o.csv"
       (VList [VDict [(KStr "x", VInt 1); (KStr "y", VNone)];
               VDict [(KStr "y", VStr "b"); (KStr "x", VInt 2);
                      (KStr "z", VStr "c")]])
       "," None false []
       {| file_path := "o.csv"; file_delimiter := ",";
          file_rows := [["x"; "y"]; ["1"; ""]; ["2"; "b"]] |}
       eq_refl)))).
Defined.

Lemma dict_get_wf_in (d : dict) (k : key) (v : pyval) :
  dict_wf d = true -> In (k, v) d -> dict_get d k = Some v.
Proof.
  induction d as [|[k0 v0] d IH]; simpl; [contradiction |].
  intros Hwf Hin. apply andb_true_iff in Hwf as [Hfresh Hwf].
  destruct Hin as [[= -> ->] | Hin]; [now rewrite key_eqb_refl |].
  destruct (key_eqb k0 k) eqn:E; [| now apply IH].
  apply negb_true_iff in Hfresh.
  assert (Hex : existsb (key_eqb k0) (keys d) = true).
  { apply existsb_exists. exists k. split; [| exact E].
    unfold keys. apply in_map_iff. now exists (k, v). }
  congruence.
Qed.

Lemma combine_self_map {A B : Type} (g : A -> B) (l : list A) :
  combine l (map g l) = map (fun x => (x, g x)) l.
Proof. induction l as [|x l IH]; simpl; [reflexivity | now rewrite IH]. Qed.

Lemma keys_pairs (g : key -> pyval) (ks : list key) :
  keys (map (fun k => (k, g k)) ks) = ks.
Proof.
  unfold keys. rewrite map_map. simpl. apply map_id.
Qed.


Section Tables.

Variable container_repr : pyval -> string.

Lemma writeheader_distinct (ks : list key) :
  distinct_keys ks = true ->
  writeheader container_repr (Some (map key_val ks))
  = Return (ks, header_cells container_repr ks).
Proof.
  intros Hd. unfold writeheader. rewrite hash_all_key_val. cbn [bind].
  rewrite dict_to_list_dict. cbn [bind]. rewrite combine_self_map.
  assert (Hwf : dict_wf (map (fun k => (k, key_val k)) ks) = true).
  { rewrite <- Hd. apply dict_wf_keys.
    now rewrite (keys_pairs key_val), (keys_pairs (fun _ => VNone)). }
  rewrite (dict_of_wf_id _ Hwf). do 2 f_equal.
  apply map_ext_in. intros k Hk. unfold dict_get_default.
  rewrite (dict_get_wf_in _ k (key_val k) Hwf); [reflexivity |].
  apply in_map_iff. now exists k.
Qed.

Lemma write_rows_mappings (ks : list key) (trim_long_strings : bool)
    (items : list dict) :
  write_rows container_repr ks trim_long_strings (map VDict items)
  = Return (map (fun item =>
                   row_cells container_repr ks
                     (row_dict container_repr trim_long_strings item))
                items).
Proof.
  induction items as [|d ds IH]; [reflexivity |].
  cbn [map write_rows]. unfold row_dict at 1.
  destruct trim_long_strings; cbn [trim_item bind];
    rewrite dict_to_list_dict; cbn [bind]; now rewrite IH.
Qed.

(** The file for the field names [ks] and the mappings [items]. *)
Lemma table_written (filepath : string) (delimiter : ascii) (ks : list key)
    (trim_long_strings : bool) (items : list dict) :
  distinct_keys ks = true ->
  ('(fieldnames, header_row) <-
      writeheader container_repr (Some (map key_val ks)) ;;
   rows <- write_rows container_repr fieldnames trim_long_strings
             (map VDict items) ;;
   Return (Some {| file_path := filepath;
                   file_delimiter := delimiter;
                   file_rows := header_row :: rows |}))
  = Return (Some {| file_path := filepath;
                    file_delimiter := delimiter;
                    file_rows :=
                      header_cells container_repr ks
                      :: map (fun item =>
                                row_cells container_repr ks
                                  (row_dict container_repr trim_long_strings
                                     item))
                             items |}).
Proof.
  intros Hd. rewrite (writeheader_distinct _ Hd). cbn [bind].
  now rewrite write_rows_mappings.
Qed.



Lemma write_rows_rejects_keys (ks : list key) (trim_long_strings : bool)
    (k : key) (rest : list pyval) :
  ks <> [] ->
  write_rows container_repr ks trim_long_strings (key_val k :: rest)
  = Raise AttributeError.
Proof.
  intros Hks. destruct ks as [|k0 ks]; [contradiction |].
  cbn [write_rows]. destruct trim_long_strings, k; reflexivity.
Qed.

Lemma export_iterates_over_keys
    (filepath : string) (delimiter : ascii) (trim_long_strings : bool)
    (items : dict) (names : list pyval) (ks : list key) :
  items <> [] ->
  names <> [] ->
  hash_all names = Return ks ->
  export_csv_data_to_disk container_repr filepath (VDict items) delimiter
    (Some names) trim_long_strings
  = ([], Raise AttributeError).
Proof.
  intros Hitems Hnames Hhash. unfold export_csv_data_to_disk.
  destruct items as [|[k v] items]; [contradiction |].
  cbn [truthy List.length Nat.eqb negb]. unfold shaped_table, deepcopy.
  cbn [bind]. unfold writeheader. rewrite Hhash. cbn [bind].
  rewrite dict_to_list_dict. cbn [bind iterate keys map fst].
  rewrite write_rows_rejects_keys; [reflexivity |].
  intros ->. apply hash_all_length in Hhash.
  destruct names; [contradiction | discriminate].
Qed.

(** X4.  [headers] cannot be combined with a mapping: a non-empty dict,
    flat or nested, exported under a non-empty list of hashable headers
    makes the writer iterate over the dict's keys, and the export raises
    [AttributeError] at the first of them, with or without trimming. *)
Theorem export_mapping_with_headers_raises
    (filepath : string) (delimiter : ascii) (trim_long_strings : bool)
    (items : dict) (names : list pyval) (ks : list key) :
  items <> [] ->
  names <> [] ->
  hash_all names = Return ks ->
  export_csv_data_to_disk container_repr filepath (VDict items) delimiter
    (Some names) trim_long_strings
  = ([], Raise AttributeError).
Proof.
  intros Hitems Hnames Hhash. unfold export_csv_data_to_disk.
  destruct items as [|[k v] items]; [contradiction |].
  cbn [truthy List.length Nat.eqb negb]. unfold shaped_table, deepcopy.
  cbn [bind]. unfold writeheader. rewrite Hhash. cbn [bind].
  rewrite dict_to_list_dict. cbn [bind iterate keys map fst].
  rewrite write_rows_rejects_keys; [reflexivity |].
  intros ->. apply hash_all_length in Hhash.
  destruct names; [contradiction | discriminate].
Qed.

End Tables.



Lemma export_mapping_with_headers_raises_witness :
  export_csv_data_to_disk opaque_repr "o.csv"
    (VDict [(KStr "color", VStr "red"); (KStr "size", VStr "large")])
    "," (Some [VStr "color"; VStr "size"]) true
  = ([], Raise AttributeError).
Proof.
  assert (Hitems : [(KStr "color", VStr "red"); (KStr "size", VStr "large")]
                   <> []) by discriminate.
  assert (Hnames : [VStr "color"; VStr "size"] <> []) by discriminate.
  exact (export_mapping_with_headers_raises opaque_repr "o.csv" "," true
           [(KStr "color", VStr "red"); (KStr "size", VStr "large")]
           [VStr "color"; VStr "size"] [KStr "color"; KStr "size"]
           Hitems Hnames eq_refl).
Defined.

(** ** Shapes the exporter refuses, and trimming *)

Lemma enforce_bound (s : string) (limit : Z) :
  Text.len (enforce_excel_cell_string_limit s limit) <= Z.max limit 4.
Proof.
  pose proof (clamp_ge_4 limit) as Hc.
  destruct (Z.lt_ge_cases (if limit <=? 3 then 4 else limit) (Text.len s))
    as [Hlong | Hshort].
  - rewrite enforce_long_length by lia. destruct (Z.leb_spec limit 3); lia.
  - rewrite enforce_short by lia. destruct (Z.leb_spec limit 3); lia.
Qed.

Lemma enforce_not_longer (s : string) (limit : Z) :
  Text.len (enforce_excel_cell_string_limit s limit) <= Text.len s.
Proof.
  destruct (Z.lt_ge_cases (if limit <=? 3 then 4 else limit) (Text.len s))
    as [Hlong | Hshort].
  - rewrite enforce_long_length by lia. lia.
  - rewrite enforce_short by lia. lia.
Qed.

(** X5.  Trimming a string that was already trimmed under the same limit
    changes nothing, and trimming never makes a string longer, nor longer
    than the limit (4 for limits below 4). *)
Theorem enforce_excel_cell_string_limit_idempotent (s : string) (limit : Z) :
  enforce_excel_cell_string_limit
    (enforce_excel_cell_string_limit s limit) limit
  = enforce_excel_cell_string_limit s limit /\
  Text.len (enforce_excel_cell_string_limit s limit) <= Text.len s /\
  Text.len (enforce_excel_cell_string_limit s limit) <= Z.max limit 4.
Proof.
  split; [| split; [apply enforce_not_longer | apply enforce_bound]].
  apply enforce_short. pose proof (enforce_bound s limit) as Hb.
  destruct (Z.leb_spec limit 3); lia.
Qed.

Lemma dict_get_set_eq (d : dict) (k1 k : key) (x : pyval) :
  key_eqb k1 k = true -> dict_get (dict_set d k1 x) k = Some x.
Proof.
  intros E. induction d as [|[a b] d IH]; simpl.
  - now rewrite E.
  - destruct (key_eqb a k1) eqn:Ea; simpl.
    + now rewrite (key_eqb_trans _ _ _ Ea E).
    + destruct (key_eqb a k) eqn:Eb; [| exact IH].
      rewrite key_eqb_sym in E.
      now rewrite (key_eqb_trans _ _ _ Eb E) in Ea.
Qed.

Lemma dict_get_some_key (d : dict) (k : key) (v : pyval) :
  dict_get d k = Some v ->
  forallb (fun k' => negb (key_eqb k' k)) (keys d) = false.
Proof.
  induction d as [|[a b] d IH]; simpl; [discriminate |].
  destruct (key_eqb a k); [reflexivity |]. simpl. exact IH.
Qed.

Section Trimming.

Variable container_repr : pyval -> string.

(** After the trimming loop, what is found under a key is a trimmed
    string, or a value the loop has not reached. *)
Lemma trim_items_lookup (todo item : dict) (k : key) (v : pyval) :
  dict_get (trim_items container_repr todo item) k = Some v ->
  (exists s, v = VStr s /\ Text.len s <= 32750) \/
  (dict_get item k = Some v /\
   forallb (fun k' => negb (key_eqb k' k)) (keys todo) = true).
Proof.
  revert item. induction todo as [|[k1 v1] todo IH]; intros item Hget.
  - right. now split.
  - cbn [trim_items] in Hget.
    destruct (IH _ Hget) as [Hshort | [Hitem Hrest]]; [now left |].
    destruct (key_eqb k1 k) eqn:E.
    + left. rewrite (dict_get_set_eq _ _ _ _ E) in Hitem.
      injection Hitem as <-. eexists. split; [reflexivity |].
      pose proof (enforce_bound (py_str container_repr v1) 32750). lia.
    + right. rewrite (dict_get_set_other _ _ _ _ E) in Hitem.
      split; [exact Hitem |]. simpl. now rewrite E, Hrest.
Qed.

Lemma trimmed_cell_short (item : dict) (k : key) :
  Text.len (written_cell container_repr
              (dict_get_default (trim_items container_repr item item) k
                 (VStr "")))
  <= 32750.
Proof.
  unfold dict_get_default.
  destruct (dict_get (trim_items container_repr item item) k) as [v|] eqn:E;
    [| unfold Text.len; simpl; lia].
  destruct (trim_items_lookup _ _ _ _ E) as [[s [-> Hs]] | [Hitem Hnone]];
    [exact Hs |].
  now rewrite (dict_get_some_key _ _ _ Hitem) in Hnone.
Qed.

Lemma write_rows_trimmed (ks : list key) (todo : list pyval)
    (rows : list (list string)) :
  write_rows container_repr ks true todo = Return rows ->
  Forall (Forall (fun cell => Text.len cell <= 32750)) rows.
Proof.
  revert rows. induction todo as [|item todo IH]; intros rows; cbn [write_rows].
  - intros [= <-]. constructor.
  - destruct item as [| b | z | s | l | d]; try discriminate.
    cbn [trim_item bind]. rewrite dict_to_list_dict. cbn [bind].
    destruct (write_rows container_repr ks true todo) as [rows'|e];
      [| discriminate].
    cbn [bind]. intros [= <-]. constructor; [| now apply IH].
    apply Forall_forall. intros cell Hin.
    apply in_map_iff in Hin as [k [<- _]]. apply trimmed_cell_short.
Qed.

(** X6.  With [trim_long_strings] on, whatever the data and the headers:
    every cell of every data row of the file written has at most 32750
    characters.  (The header line is not trimmed.) *)
Theorem export_csv_trims_every_data_cell
    (filepath : string) (data : pyval) (delimiter : ascii)
    (headers : option (list pyval)) (printed : list string)
    (file : csv_file) :
  export_csv_data_to_disk container_repr filepath data delimiter headers true
  = (printed, Return (Some file)) ->
  Forall (Forall (fun cell => Text.len cell <= 32750)) (tl (file_rows file)).
Proof.
  unfold export_csv_data_to_disk.
  destruct (negb (truthy data)); [discriminate |].
  destruct (shaped_table data headers) as [[headers' to_export_data]|e];
    [| discriminate].
  cbn [bind].
  destruct (writeheader container_repr headers') as [[ks header_row]|e];
    [| discriminate].
  cbn [bind].
  destruct (iterate to_export_data) as [items|e]; [| discriminate].
  cbn [bind].
  destruct (write_rows container_repr ks true items) as [rows|e] eqn:Er;
    [| discriminate].
  cbn [bind]. intros [= <- <-]. cbn [file_rows tl].
  exact (write_rows_trimmed _ _ _ Er).
Qed.

Lemma write_rows_rejects_other (ks : list key) (trim_long_strings : bool)
    (todo : list pyval) :
  ks <> [] ->
  existsb (fun v => negb (is_mapping v)) todo = true ->
  write_rows container_repr ks trim_long_strings todo = Raise AttributeError.
Proof.
  intros Hks. destruct ks as [|k0 ks]; [contradiction |].
  induction todo as [|item todo IH]; [discriminate |].
  cbn [existsb write_rows]. intros Hex.
  destruct item as [| b | z | s | l | d];
    try (now destruct trim_long_strings).
  cbn [is_mapping negb orb] in Hex. rewrite (IH Hex).
  now destruct trim_long_strings.
Qed.

(** X7.  Mappings the shaper cannot lay out are refused with an
    exception: a dict whose first value is a list raises [TypeError],
    whatever follows; a dict whose first value is a non-empty mapping but
    one of whose other values is not a mapping raises [AttributeError]. *)
Theorem export_csv_refuses_mixed_mappings
    (filepath : string) (delimiter : ascii) (trim_long_strings : bool)
    (first_key : key) (rest : dict) :
  (forall elements : list pyval,
      export_csv_data_to_disk container_repr filepath
        (VDict ((first_key, VList elements) :: rest)) delimiter None
        trim_long_strings
      = ([], Raise TypeError)) /\
  (forall first : dict,
      first <> [] ->
      existsb (fun v => negb (is_mapping v)) (values rest) = true ->
      export_csv_data_to_disk container_repr filepath
        (VDict ((first_key, VDict first) :: rest)) delimiter None
        trim_long_strings
      = ([], Raise AttributeError)).
Proof.
  split.
  - intros elements. unfold export_csv_data_to_disk.
    cbn [truthy List.length Nat.eqb negb]. unfold shaped_table, deepcopy.
    cbn [derive_headers flat_loop Z.eqb].
    destruct rest as [|[k v] rest].
    + cbn [flat_loop bind]. unfold writeheader. cbn [hash_all].
      now rewrite hashable_key_val.
    + cbn [flat_loop Z.add Z.eqb Pos.add Pos.eqb flat_row].
      now rewrite hashable_key_val.
  - intros first Hne Hex. unfold export_csv_data_to_disk.
    cbn [truthy List.length Nat.eqb negb]. unfold shaped_table, deepcopy.
    cbn [derive_headers bind]. unfold writeheader.
    rewrite hash_all_key_val. cbn [bind]. rewrite dict_to_list_dict.
    cbn [bind iterate]. rewrite write_rows_rejects_other; [reflexivity | |].
    + destruct first; [contradiction | discriminate].
    + unfold values in *. cbn [map snd existsb is_mapping negb orb].
      exact Hex.
Qed.

End Trimming.

Lemma export_csv_trims_every_data_cell_witness :
  Forall (Forall (fun cell => Text.len cell <= 32750))
         [["None"; "12"]; ["x"; ""]].
Proof.
  exact (export_csv_trims_every_data_cell opaque_repr "o.csv"
           (VList [VDict [(KStr "a", VNone); (KStr "b", VInt 12)];
                   VDict [(KStr "a", VStr "x")]])
           "," None []
           {| file_path := "o.csv"; file_delimiter := ",";
              file_rows := [["a"; "b"]; ["None"; "12"]; ["x"; ""]] |}
           eq_refl).
Defined.

Lemma export_csv_refuses_mixed_mappings_witness :
  export_csv_data_to_disk opaque_repr "o.csv"
    (VDict [(KStr "k1", VDict [(KStr "x", VInt 1)]); (KStr "k2", VInt 2)])
    "," None false
  = ([], Raise AttributeError).
Proof.
  assert (Hne : [(KStr "x", VInt 1)] <> []) by discriminate.
  exact (proj2 (export_csv_refuses_mixed_mappings opaque_repr "o.csv" ","
                  false (KStr "k1") [(KStr "k2", VInt 2)])
               [(KStr "x", VInt 1)] Hne eq_refl).
Defined.

(** * Further properties of the importer *)

Lemma dict_set_keeps_key (d : dict) (k1 k : key) (v1 : pyval) :
  (exists x, dict_get d k = Some x) ->
  exists x, dict_get (dict_set d k1 v1) k = Some x.
Proof.
  intros [x Hx]. destruct (key_eqb k1 k) eqn:E.
  - exists v1. now apply dict_get_set_eq.
  - exists x. now rewrite dict_get_set_other.
Qed.

Lemma dict_get_fold_set_some (pairs : list (key * pyval)) (d : dict) (k : key) :
  (exists x, dict_get d k = Some x) \/ In k (keys pairs) ->
  exists x,
    dict_get (fold_left (fun d kv => dict_set d (fst kv) (snd kv)) pairs d) k
    = Some x.
Proof.
  revert d. induction pairs as [|[k1 v1] pairs IH]; intros d H; simpl in *.
  - destruct H as [H | []]. exact H.
  - apply IH. destruct H as [H | [-> | H]].
    + left. now apply dict_set_keeps_key.
    + left. exists v1. apply dict_get_set_same.
    + now right.
Qed.

Lemma keys_combine_wide {B : Type} (ks : list key) (vals : list B) :
  (List.length ks <= List.length vals)%nat ->
  map fst (combine ks vals) = ks.
Proof.
  revert vals. induction ks as [|k ks IH]; intros [|v vals] Hlen; simpl in *;
    try reflexivity; try lia.
  now rewrite IH by lia.
Qed.

Lemma dictreader_row_has_headers (fieldnames : list key) (row : list string)
    (k : key) :
  (List.length fieldnames <= List.length row)%nat ->
  In k fieldnames ->
  exists x, dict_get (dictreader_row fieldnames row) k = Some x.
Proof.
  intros Hlen Hin.
  assert (Hd : exists x,
             dict_get (dict_of (combine fieldnames (map VStr row))) k = Some x).
  { apply dict_get_fold_set_some. right. unfold keys.
    rewrite keys_combine_wide by (now rewrite length_map). exact Hin. }
  unfold dictreader_row.
  destruct (Nat.ltb_spec (List.length fieldnames) (List.length row)).
  - now apply dict_set_keeps_key.
  - destruct (Nat.ltb_spec (List.length row) (List.length fieldnames));
      [lia | exact Hd].
Qed.

Lemma lowerable_found (d : dict) (k : key) (x : pyval) :
  all_lowerable d = true -> dict_get d k = Some x -> lowerable x = true.
Proof.
  intros Hall Hget. destruct (lowerable x) eqn:E; [reflexivity |].
  now rewrite (dict_get_not_lowerable _ _ _ Hget E) in Hall.
Qed.

Lemma coerce_lowerable_not_none (x : pyval) :
  lowerable x = true -> coerce x <> VNone.
Proof.
  destruct x; try discriminate. intros _. unfold coerce.
  destruct (Text.lower s =? "true")%string; [discriminate |].
  destruct (Text.lower s =? "false")%string; discriminate.
Qed.

Lemma import_csv_returned (filepath : string) (rows : list (list string))
    (headers : option (list key)) (v : pyval) :
  snd (import_csv_from_disk filepath (Parsed rows) headers) = Return v ->
  forallb all_lowerable (DictReader headers rows) = true /\
  records_of v = map (map coerce_item) (DictReader headers rows).
Proof.
  rewrite import_csv_parsed. cbn [snd].
  destruct (forallb all_lowerable (DictReader headers rows)); [| discriminate].
  intros H. split; [reflexivity | exact (records_of_collapse _ _ H)].
Qed.

(** X8.  Every record of a returned import has, under every field name,
    a value that is not [None]: a table the importer hands out has no
    hole. *)
Theorem import_csv_records_cover_headers
    (filepath : string) (rows : list (list string))
    (headers : option (list key)) (v : pyval) :
  snd (import_csv_from_disk filepath (Parsed rows) headers) = Return v ->
  forall (record : dict) (k : key),
    In record (records_of v) ->
    In k (field_names headers rows) ->
    exists x, dict_get record k = Some x /\ x <> VNone.
Proof.
  intros Hret record k Hrec Hk.
  destruct (import_csv_returned _ _ _ _ Hret) as [Hlow Hrecs].
  rewrite Hrecs, DictReader_rows in Hrec.
  apply in_map_iff in Hrec as [r0 [<- Hr0]].
  assert (Hr0low : all_lowerable r0 = true).
  { rewrite forallb_forall in Hlow. apply Hlow.
    now rewrite DictReader_rows. }
  apply in_map_iff in Hr0 as [row [<- Hrow]].
  assert (Hwide : (List.length (field_names headers rows)
                   <= List.length row)%nat).
  { destruct (Nat.le_gt_cases (List.length (field_names headers rows))
                (List.length row)) as [Hle | Hgt]; [exact Hle |].
    now rewrite (dictreader_row_short _ _ Hgt) in Hr0low. }
  destruct (dictreader_row_has_headers _ _ _ Hwide Hk) as [x Hx].
  exists (coerce x). rewrite dict_get_coerce, Hx. split; [reflexivity |].
  apply coerce_lowerable_not_none. exact (lowerable_found _ _ _ Hr0low Hx).
Qed.

Lemma import_csv_records_cover_headers_witness :
  exists x,
    dict_get [(KStr "a", VStr "1"); (KStr "b", VBool true);
              (KNone, VList [VStr "z"])] (KStr "b") = Some x /\
    x <> VNone.
Proof.
  apply (import_csv_records_cover_headers "in.csv"
           [["a"; "b"]; ["1"; "TRUE"; "z"]; ["2"; "no"]] None
           (VList [VDict [(KStr "a", VStr "1"); (KStr "b", VBool true);
                          (KNone, VList [VStr "z"])];
                   VDict [(KStr "a", VStr "2"); (KStr "b", VStr "no")]])
           eq_refl).
  - left. reflexivity.
  - right. left. reflexivity.
Defined.

Lemma filter_nonblank_twice (rows : list (list string)) :
  filter nonblank (filter nonblank rows) = filter nonblank rows.
Proof.
  induction rows as [|row rows IH]; [reflexivity |].
  simpl. destruct (nonblank row) eqn:E; simpl; [rewrite E |]; now rewrite IH.
Qed.

(** X9.  Blank rows do not count: an import gives the same printed lines
    and the same outcome with the blank data rows of the file taken out,
    and what it returns holds exactly one record per non-blank data
    row. *)
Theorem import_csv_skips_blank_rows
    (filepath : string) (rows : list (list string))
    (headers : option (list key)) :
  import_csv_from_disk filepath (Parsed (without_blank_rows headers rows))
    headers
  = import_csv_from_disk filepath (Parsed rows) headers /\
  (forall v : pyval,
      snd (import_csv_from_disk filepath (Parsed rows) headers) = Return v ->
      List.length (records_of v)
      = List.length (filter nonblank (data_rows headers rows))).
Proof.
  split.
  - rewrite !import_csv_parsed.
    assert (Hsame : DictReader headers (without_blank_rows headers rows)
                    = DictReader headers rows).
    { destruct headers as [fieldnames|]; [| destruct rows as [|first rest]];
        cbn [DictReader without_blank_rows]; try reflexivity;
        now rewrite filter_nonblank_twice. }
    now rewrite Hsame.
  - intros v Hret. destruct (import_csv_returned _ _ _ _ Hret) as [_ Hrecs].
    now rewrite Hrecs, DictReader_rows, !length_map.
Qed.

Lemma import_csv_skips_blank_rows_witness :
  List.length
    (records_of
       (VList [VDict [(KStr "a", VStr "1")]; VDict [(KStr "a", VStr "2")]]))
  = List.length (filter nonblank (data_rows None [["a"]; ["1"]; []; ["2"]])).
Proof.
  apply (proj2 (import_csv_skips_blank_rows "in.csv"
                  [["a"]; ["1"]; []; ["2"]] None)).
  reflexivity.
Defined.

(** * Conversions *)

Lemma trim_items_wf (container_repr : pyval -> string) (todo pre : dict) :
  dict_wf (pre ++ todo) = true ->
  trim_items container_repr todo (pre ++ todo)
  = pre ++ map (fun kv =>
                  (fst kv,
                   VStr (enforce_excel_cell_string_limit
                           (py_str container_repr (snd kv)) 32750)))
               todo.
Proof.
  revert pre. induction todo as [|[k v] todo IH]; intros pre Hwf.
  - reflexivity.
  - cbn [trim_items map fst snd].
    rewrite (dict_set_middle _ _ _ _ _ (dict_wf_app_head _ _ _ _ Hwf)).
    replace (pre ++ (k, VStr (enforce_excel_cell_string_limit
                                (py_str container_repr v) 32750)) :: todo)
      with ((pre ++ [(k, VStr (enforce_excel_cell_string_limit
                                 (py_str container_repr v) 32750))]) ++ todo)
      by now rewrite <- app_assoc.
    rewrite IH; [now rewrite <- app_assoc |].
    rewrite <- Hwf. apply dict_wf_keys. unfold keys.
    now rewrite <- app_assoc, !map_app.
Qed.

Lemma row_cells_wf (container_repr : pyval -> string) (d : dict) :
  dict_wf d = true ->
  row_cells container_repr (keys d) d
  = map (written_cell container_repr) (values d).
Proof.
  intros Hwf. unfold row_cells, keys, values. rewrite !map_map.
  apply map_ext_in. intros [k v] Hin. unfold dict_get_default. cbn [fst snd].
  now rewrite (dict_get_wf_in _ _ _ Hwf Hin).
Qed.

(** The cells of a well-formed mapping written under its own keys. *)
Lemma row_cells_own_keys (container_repr : pyval -> string)
    (trim_long_strings : bool) (d : dict) :
  dict_wf d = true ->
  row_cells container_repr (keys d)
    (row_dict container_repr trim_long_strings d)
  = map (fun v =>
           if trim_long_strings
           then enforce_excel_cell_string_limit (py_str container_repr v) 32750
           else written_cell container_repr v)
        (values d).
Proof.
  intros Hwf. unfold row_dict. destruct trim_long_strings.
  - pose proof (trim_items_wf container_repr d [] Hwf) as Ht.
    cbn [app] in Ht. rewrite Ht. clear Ht.
    set (t := map _ d).
    assert (Hk : keys t = keys d)
      by (unfold t, keys; rewrite map_map; reflexivity).
    rewrite <- Hk, row_cells_wf.
    + unfold t, values. now rewrite !map_map.
    + rewrite <- Hwf. now apply dict_wf_keys.
  - now apply row_cells_wf.
Qed.

Lemma cell_of_coerced (container_repr : pyval -> string) (s : string) :
  written_cell container_repr (coerce (VStr s)) = recase s /\
  py_str container_repr (coerce (VStr s)) = recase s.
Proof.
  unfold coerce, recase.
  destruct (Text.lower s =? "true")%string; [now split |].
  destruct (Text.lower s =? "false")%string; now split.
Qed.

Lemma kept_cell_of_coerced (container_repr : pyval -> string)
    (trim_long_strings : bool) (s : string) :
  (if trim_long_strings
   then enforce_excel_cell_string_limit
          (py_str container_repr (coerce (VStr s))) 32750
   else written_cell container_repr (coerce (VStr s)))
  = kept trim_long_strings (recase s).
Proof.
  destruct (cell_of_coerced container_repr s) as [Hw Hp].
  unfold kept. destruct trim_long_strings; now rewrite ?Hw, ?Hp.
Qed.

Lemma dictreader_row_exact (names : list string) (row : list string) :
  NoDup names -> List.length row = List.length names ->
  dictreader_row (map KStr names) row
  = combine (map KStr names) (map VStr row).
Proof.
  intros Hnd Hlen. unfold dictreader_row.
  rewrite length_map, Hlen, Nat.ltb_irrefl.
  apply dict_of_wf_id, combine_names_wf, Hnd.
Qed.

Lemma coerce_combine (ks : list key) (row : list string) :
  map coerce_item (combine ks (map VStr row))
  = combine ks (map (fun c => coerce (VStr c)) row).
Proof.
  revert row. induction ks as [|k ks IH]; intros [|c row]; simpl;
    try reflexivity.
  now rewrite <- IH.
Qed.

Lemma keys_combine_exact (ks : list key) (vals : list pyval) :
  List.length vals = List.length ks -> keys (combine ks vals) = ks.
Proof. intros Hlen. apply keys_combine_wide. lia. Qed.

Lemma values_combine_exact (ks : list key) (vals : list pyval) :
  List.length vals = List.length ks -> values (combine ks vals) = vals.
Proof.
  revert vals. induction ks as [|k ks IH]; intros [|v vals] Hlen; simpl in *;
    try reflexivity; try discriminate.
  unfold values in IH. now rewrite IH by lia.
Qed.

Lemma header_cells_names (container_repr : pyval -> string)
    (names : list string) :
  header_cells container_repr (map KStr names) = names.
Proof.
  unfold header_cells. rewrite map_map. simpl. apply map_id.
Qed.

Lemma distinct_names (names : list string) :
  NoDup names -> distinct_keys (map KStr names) = true.
Proof.
  intros Hnd. unfold distinct_keys.
  rewrite <- (combine_names_wf names (map (fun _ => VNone) names) Hnd).
  apply dict_wf_keys. rewrite (keys_pairs (fun _ => VNone)).
  symmetry. apply keys_combine_exact. now rewrite !length_map.
Qed.

Section Conversions.

Variable container_repr : pyval -> string.

(** The importer on a file all of whose data rows have the width of the
    header. *)
Lemma import_csv_exact_rows (filepath : string) (rows : list (list string))
    (headers : option (list key)) (names : list string) :
  field_names headers rows = map KStr names ->
  NoDup names -> names <> [] ->
  Forall (fun row => List.length row = List.length names)
         (data_rows headers rows) ->
  import_csv_from_disk filepath (Parsed rows) headers
  = ([],
     collapse
       (Some (map (fun row =>
                     combine (map KStr names)
                             (map (fun c => coerce (VStr c)) row))
                  (data_rows headers rows)))).
Proof.
  intros Hfn Hnd Hne Hwidth. rewrite import_csv_parsed, DictReader_rows, Hfn.
  rewrite Forall_forall in Hwidth.
  assert (Hfilter : filter nonblank (data_rows headers rows)
                    = data_rows headers rows).
  { apply forallb_filter_id, forallb_forall. intros row Hin.
    specialize (Hwidth _ Hin). destruct row; [| reflexivity].
    destruct names; [contradiction | discriminate]. }
  rewrite Hfilter.
  assert (Hlow : forallb all_lowerable
                   (map (dictreader_row (map KStr names))
                        (data_rows headers rows)) = true).
  { apply forallb_forall. intros r Hin. apply in_map_iff in Hin as [row [<- Hin]].
    apply dictreader_row_lowerable. rewrite length_map, (Hwidth _ Hin). lia. }
  rewrite Hlow, map_map. do 3 f_equal. apply map_ext_in. intros row Hin.
  rewrite (dictreader_row_exact _ _ Hnd (Hwidth _ Hin)). apply coerce_combine.
Qed.

(** The exporter on mappings that all have the keys [names], in order,
    with no [headers] or with these names as [headers]. *)
Lemma export_records (filepath : string) (delimiter : ascii)
    (trim_long_strings : bool) (names : list string) (items : list dict)
    (headers : option (list pyval)) :
  NoDup names -> items <> [] ->
  Forall (fun d => keys d = map KStr names /\ dict_wf d = true) items ->
  headers = None \/ headers = Some (map key_val (map KStr names)) ->
  (exists shaped, shaped_table (VList (map VDict items)) headers
                  = Return shaped) /\
  export_csv_data_to_disk container_repr filepath (VList (map VDict items))
    delimiter headers trim_long_strings
  = ([],
     Return
       (Some {| file_path := filepath;
                file_delimiter := delimiter;
                file_rows :=
                  names
                  :: map (fun d =>
                            map (fun v =>
                                   if trim_long_strings
                                   then enforce_excel_cell_string_limit
                                          (py_str container_repr v) 32750
                                   else written_cell container_repr v)
                                (values d))
                         items |})).
Proof.
  intros Hnd Hne Hitems Hheaders.
  destruct items as [|first rest]; [contradiction |].
  assert (Hfirst : keys first = map KStr names)
    by (inversion Hitems as [|? ? [Hk _] _]; exact Hk).
  assert (Hshape : shaped_table (VList (map VDict (first :: rest))) headers
                   = Return (Some (map key_val (map KStr names)),
                             VList (map VDict (first :: rest)))).
  { unfold shaped_table, deepcopy.
    destruct Hheaders as [-> | ->]; [| reflexivity].
    cbn [map derive_headers iterate bind]. now rewrite Hfirst. }
  split; [eexists; exact Hshape |].
  unfold export_csv_data_to_disk.
  replace (negb (truthy (VList (map VDict (first :: rest))))) with false
    by reflexivity.
  rewrite Hshape. cbn [bind iterate].
  rewrite (table_written container_repr filepath delimiter (map KStr names)
             trim_long_strings (first :: rest) (distinct_names _ Hnd)).
  rewrite header_cells_names. do 5 f_equal.
  apply map_ext_in. intros d Hd.
  rewrite Forall_forall in Hitems. destruct (Hitems _ Hd) as [Hk Hwf].
  rewrite <- Hk. now apply row_cells_own_keys.
Qed.

(** X10.  Converting a CSV file to a CSV file, with no [headers] or with
    the field names as [headers]: when the names are distinct text and
    the file has at least two data rows, all of the header's width, the
    file written has the names as header and the same data rows, cell for
    cell, except that [true] and [false] in any letter case are written
    [True] and [False] (and that cells are cut under the trimming
    option). *)
Theorem convert_csv_to_csv_recases_booleans
    (import_path export_path : string) (f : source_file)
    (rows : list (list string)) (headers : option (list key))
    (names : list string) (delimiter : ascii) (trim_long_string : bool) :
  src_exists f = true ->
  src_csv f = Parsed rows ->
  field_names headers rows = map KStr names ->
  NoDup names -> names <> [] ->
  Forall (fun row => List.length row = List.length names)
         (data_rows headers rows) ->
  (2 <= List.length (data_rows headers rows))%nat ->
  convert_file container_repr import_path DotCsv f export_path DotCsv true
    headers delimiter trim_long_string
  = ([],
     Done
       (Some (WroteCsv
                {| file_path := export_path;
                   file_delimiter := delimiter;
                   file_rows :=
                     names
                     :: map (map (fun c => kept trim_long_string (recase c)))
                            (data_rows headers rows) |}))).
Proof.
  intros Hex Hcsv Hfn Hnd Hne Hwidth Htwo.
  unfold convert_file, import_data_from_disk. rewrite Hex, Hcsv.
  rewrite (import_csv_exact_rows _ _ _ _ Hfn Hnd Hne Hwidth).
  set (records := map _ (data_rows headers rows)).
  assert (Hcollapse : collapse (Some records)
                      = Return (VList (map VDict records))).
  { unfold records. destruct (data_rows headers rows) as [|r1 [|r2 rest]];
      simpl in Htwo; try lia. reflexivity. }
  rewrite Hcollapse.
  assert (Hrecords : Forall (fun d => keys d = map KStr names /\
                                      dict_wf d = true) records).
  { apply Forall_forall. intros d Hd. unfold records in Hd.
    apply in_map_iff in Hd as [row [<- Hrow]].
    rewrite Forall_forall in Hwidth. split.
    - apply keys_combine_exact. now rewrite !length_map, (Hwidth _ Hrow).
    - now apply combine_names_wf. }
  assert (Hnonempty : records <> []).
  { unfold records. destruct (data_rows headers rows);
      [simpl in Htwo; lia | discriminate]. }
  assert (Hheaders : option_map (map key_val) headers = None \/
                     option_map (map key_val) headers
                     = Some (map key_val (map KStr names))).
  { destruct headers as [fieldnames|]; [right | now left].
    cbn [field_names] in Hfn. now rewrite Hfn. }
  destruct (export_records export_path delimiter trim_long_string names
              records _ Hnd Hnonempty Hrecords Hheaders)
    as [[shaped Hshape] Hexport].
  unfold export_data_to_disk, export_csv_into.
  replace (negb (truthy (VList (map VDict records)))) with false
    by (destruct records; [contradiction | reflexivity]).
  rewrite Hshape, Hexport. cbn [bind option_map outcome_of app].
  do 6 f_equal. unfold records. rewrite map_map.
  apply map_ext_in. intros row Hrow. rewrite Forall_forall in Hwidth.
  rewrite values_combine_exact by (now rewrite !length_map, (Hwidth _ Hrow)).
  rewrite map_map. apply map_ext. intros c. apply kept_cell_of_coerced.
Qed.

End Conversions.

Lemma convert_csv_to_csv_recases_booleans_witness :
  convert_file opaque_repr "in.csv" DotCsv
    {| src_exists := true; src_json := JsonInvalid;
       src_csv := Parsed [["name"; "ok"]; ["ann"; "TRUE"]; ["bob"; "false"]] |}
    "out.csv" DotCsv true None ";" false
  = ([],
     Done (Some (WroteCsv
                   {| file_path := "out.csv"; file_delimiter := ";";
                      file_rows := [["name"; "ok"]; ["ann"; "True"];
                                    ["bob"; "False"]] |}))).
Proof.
  assert (Hnd : NoDup ["name"; "ok"]).
  { repeat constructor; simpl; intuition discriminate. }
  assert (Hne : ["name"; "ok"] <> []) by discriminate.
  assert (Hwidth : Forall (fun row => List.length row = 2%nat)
                     [["ann"; "TRUE"]; ["bob"; "false"]])
    by (repeat constructor).
  exact (convert_csv_to_csv_recases_booleans opaque_repr "in.csv" "out.csv"
           {| src_exists := true; src_json := JsonInvalid;
              src_csv := Parsed [["name"; "ok"]; ["ann"; "TRUE"];
                                 ["bob"; "false"]] |}
           [["name"; "ok"]; ["ann"; "TRUE"]; ["bob"; "false"]] None
           ["name"; "ok"] ";" false eq_refl eq_refl eq_refl Hnd Hne Hwidth
           (le_n 2)).
Defined.

Lemma scalar_coerced (s : string) : scalar (coerce (VStr s)) = true.
Proof.
  unfold coerce. destruct (Text.lower s =? "true")%string; [reflexivity |].
  now destruct (Text.lower s =? "false")%string.
Qed.

Lemma key_of_coerced (h c : string) (k : key) :
  h <> c -> hashable (coerce (VStr c)) = Return k ->
  key_eqb (KStr h) k = false.
Proof.
  intros Hne. unfold coerce.
  destruct (Text.lower c =? "true")%string; [now intros [= <-] |].
  destruct (Text.lower c =? "false")%string; [now intros [= <-] |].
  intros [= <-]. now apply String.eqb_neq.
Qed.

Lemma shaped_flat (first_key second_header : key) (first_value : pyval)
    (rest : dict) :
  scalar first_value = true ->
  hashable first_value = Return second_header ->
  shaped_table (VDict ((first_key, first_value) :: rest)) None
  = Return (Some [key_val first_key; first_value],
            VList (map (vertical_row first_key second_header) rest)).
Proof.
  intros Hs Hk. unfold shaped_table, deepcopy, derive_headers.
  assert (Hloop : flat_loop ((first_key, first_value) :: rest) 0 None []
                  = Return (Some [key_val first_key; first_value],
                            map (vertical_row first_key second_header) rest))
    by (cbn [flat_loop Z.eqb]; now rewrite (flat_loop_rows _ _ _ _ _ Hk)).
  destruct first_value; try discriminate; now rewrite Hloop.
Qed.

Lemma map_combine_maps {A B C D E : Type} (g : A -> C) (f : B -> D)
    (h : C * D -> E) (l1 : list A) (l2 : list B) :
  map h (combine (map g l1) (map f l2))
  = map (fun p => h (g (fst p), f (snd p))) (combine l1 l2).
Proof.
  revert l2. induction l1 as [|a l1 IH]; intros [|b l2]; simpl;
    try reflexivity.
  now rewrite IH.
Qed.

Section Vertical.

Variable container_repr : pyval -> string.

(** X11.  Converting a CSV file with a header line and exactly one data
    row to CSV, without [headers], does not reproduce the row: the single
    record collapses to a mapping and is laid out vertically.  The header
    written is the first field name and the first cell; each further
    field gives one row, its name beside its cell. *)
Theorem convert_single_row_csv_turns_vertical
    (import_path export_path : string) (f : source_file)
    (first_name first_cell : string) (names cells : list string)
    (delimiter : ascii) (trim_long_string : bool) :
  src_exists f = true ->
  src_csv f = Parsed [first_name :: names; first_cell :: cells] ->
  List.length cells = List.length names ->
  NoDup (first_name :: names) ->
  first_name <> first_cell ->
  convert_file container_repr import_path DotCsv f export_path DotCsv true
    None delimiter trim_long_string
  = ([],
     Done
       (Some (WroteCsv
                {| file_path := export_path;
                   file_delimiter := delimiter;
                   file_rows :=
                     [first_name; recase first_cell]
                     :: map (fun nc =>
                               [kept trim_long_string (fst nc);
                                kept trim_long_string (recase (snd nc))])
                            (combine names cells) |}))).
Proof.
  intros Hex Hcsv Hlen Hnd Hne.
  unfold convert_file, import_data_from_disk. rewrite Hex, Hcsv.
  assert (Hwidth : Forall (fun row => List.length row
                                      = List.length (first_name :: names))
                     (data_rows None
                        [first_name :: names; first_cell :: cells]))
    by (constructor; [simpl; now rewrite Hlen | constructor]).
  rewrite (import_csv_exact_rows import_path
             [first_name :: names; first_cell :: cells] None
             (first_name :: names) eq_refl Hnd ltac:(discriminate) Hwidth).
  cbn [data_rows tl map collapse combine option_map].
  set (v0 := coerce (VStr first_cell)).
  set (rest := combine (map KStr names)
                       (map (fun c => coerce (VStr c)) cells)).
  destruct (hashable_scalar v0 (scalar_coerced first_cell)) as [k1 [Hk1 Hv0]].
  pose proof (key_of_coerced first_name first_cell k1 Hne Hk1) as Hdistinct.
  pose proof (shaped_flat (KStr first_name) k1 v0 rest
                (scalar_coerced first_cell) Hk1) as Hshape.
  unfold export_data_to_disk, export_csv_into, export_csv_data_to_disk.
  cbn [truthy List.length Nat.eqb negb]. rewrite Hshape.
  cbn [bind iterate key_val].
  assert (Hheader : writeheader container_repr (Some [VStr first_name; v0])
                    = Return ([KStr first_name; k1],
                              [first_name; recase first_cell])).
  { rewrite <- Hv0.
    change [VStr first_name; key_val k1]
      with (map key_val [KStr first_name; k1]).
    rewrite writeheader_distinct.
    - unfold header_cells. cbn [map key_val]. rewrite Hv0. unfold v0.
      now rewrite (proj1 (cell_of_coerced container_repr first_cell)).
    - unfold distinct_keys.
      cbn [map dict_wf keys fst existsb orb negb andb]. now rewrite Hdistinct. }
  rewrite Hheader. cbn [bind].
  assert (Hrows : map (vertical_row (KStr first_name) k1) rest
                  = map VDict
                      (map (fun kv => [(KStr first_name, key_val (fst kv));
                                       (k1, snd kv)]) rest)).
  { rewrite map_map. apply map_ext. intros kv.
    unfold vertical_row, dict_of. cbn [fold_left dict_set fst snd].
    now rewrite Hdistinct. }
  rewrite Hrows, write_rows_mappings. cbn [bind option_map outcome_of app].
  do 6 f_equal. rewrite map_map. unfold rest. rewrite map_combine_maps.
  apply map_ext. intros [n c]. cbn [fst snd key_val].
  assert (Hwf : dict_wf [(KStr first_name, VStr n);
                         (k1, coerce (VStr c))] = true)
    by (cbn [map dict_wf keys fst existsb orb negb andb];
        now rewrite Hdistinct).
  pose proof (row_cells_own_keys container_repr trim_long_string _ Hwf) as Hc.
  cbn [keys values map fst snd] in Hc. rewrite Hc.
  rewrite kept_cell_of_coerced. unfold kept.
  now destruct trim_long_string.
Qed.

(** X12.  When the import fails softly (the path does not exist, the
    extension is neither [.json] nor [.csv], or the JSON file is empty or
    invalid) it prints one line and returns [None]; [convert_file] then
    goes on to the export, which for a [.json] or [.csv] target prints
    ["Nothing to export."], writes no file and creates no directory, and
    for any other target leaves through [sys.exit]. *)
Theorem convert_with_nothing_imported
    (import_path export_path : string) (import_suffix export_suffix : extension)
    (f : source_file) (dir_exists : bool) (headers : option (list key))
    (delimiter : ascii) (trim_long_string : bool) :
  soft_failure import_suffix f = true ->
  exists line : string,
    import_data_from_disk import_path import_suffix f headers
    = ([line], Return VNone) /\
    convert_file container_repr import_path import_suffix f export_path
      export_suffix dir_exists headers delimiter trim_long_string
    = match export_suffix with
      | DotJson | DotCsv => ([line; "Nothing to export."], Done None)
      | DotOther =>
          ([line],
           Exited "Exports can only be made to .json and .csv formats.")
      end.
Proof.
  intros Hsoft. unfold soft_failure in Hsoft.
  unfold convert_file, import_data_from_disk.
  destruct (src_exists f).
  - destruct import_suffix; cbn [negb orb] in Hsoft; try discriminate.
    + unfold import_json_from_disk.
      destruct (src_json f); try discriminate; eexists;
        (split; [reflexivity | now destruct export_suffix]).
    + eexists. split; [reflexivity | now destruct export_suffix].
  - eexists. split; [reflexivity | now destruct export_suffix].
Qed.

(** X13.  A CSV file with no data row (a header line alone, or only
    blank rows after it) imports as the empty list; converting it to CSV
    prints ["Nothing to export."] and writes nothing, while converting it
    to JSON writes the empty list. *)
Theorem convert_csv_without_data_rows
    (import_path csv_path json_path : string) (f : source_file)
    (rows : list (list string)) (dir_exists : bool)
    (headers : option (list key)) (delimiter : ascii)
    (trim_long_string : bool) :
  src_exists f = true ->
  src_csv f = Parsed rows ->
  filter nonblank (data_rows headers rows) = [] ->
  convert_file container_repr import_path DotCsv f csv_path DotCsv
    dir_exists headers delimiter trim_long_string
  = (["Nothing to export."], Done None) /\
  convert_file container_repr import_path DotCsv f json_path DotJson
    dir_exists headers delimiter trim_long_string
  = ([], Done (Some (WroteJson json_path (negb dir_exists) (VList [])))).
Proof.
  intros Hex Hcsv Hnone. unfold convert_file, import_data_from_disk.
  rewrite Hex, Hcsv, import_csv_parsed, DictReader_rows, Hnone.
  split; reflexivity.
Qed.

End Vertical.

Lemma convert_single_row_csv_turns_vertical_witness :
  convert_file opaque_repr "in.csv" DotCsv
    {| src_exists := true; src_json := JsonInvalid;
       src_csv := Parsed [["id"; "name"; "ok"]; ["7"; "ann"; "true"]] |}
    "out.csv" DotCsv true None "," false
  = ([],
     Done (Some (WroteCsv
                   {| file_path := "out.csv"; file_delimiter := ",";
                      file_rows := [["id"; "7"]; ["name"; "ann"];
                                    ["ok"; "True"]] |}))).
Proof.
  assert (Hnd : NoDup ["id"; "name"; "ok"]).
  { repeat constructor; simpl; intuition discriminate. }
  assert (Hne : "id" <> "7") by discriminate.
  exact (convert_single_row_csv_turns_vertical opaque_repr "in.csv" "out.csv"
           {| src_exists := true; src_json := JsonInvalid;
              src_csv := Parsed [["id"; "name"; "ok"]; ["7"; "ann"; "true"]] |}
           "id" "7" ["name"; "ok"] ["ann"; "true"] "," false
           eq_refl eq_refl eq_refl Hnd Hne).
Defined.

Lemma convert_with_nothing_imported_witness :
  exists line : string,
    import_data_from_disk "in.json" DotJson
      {| src_exists := true; src_json := JsonZeroBytes; src_csv := ZeroBytes |}
      None
    = ([line], Return VNone) /\
    convert_file opaque_repr "in.json" DotJson
      {| src_exists := true; src_json := JsonZeroBytes; src_csv := ZeroBytes |}
      "out.csv" DotCsv false None "," false
    = ([line; "Nothing to export."], Done None).
Proof.
  exact (convert_with_nothing_imported opaque_repr "in.json" "out.csv"
           DotJson DotCsv
           {| src_exists := true; src_json := JsonZeroBytes;
              src_csv := ZeroBytes |}
           false None "," false eq_refl).
Defined.

Lemma convert_csv_without_data_rows_witness :
  convert_file opaque_repr "in.csv" DotCsv
    {| src_exists := true; src_json := JsonInvalid;
       src_csv := Parsed [["a"; "b"]; []] |}
    "out.csv" DotCsv true None "," false
  = (["Nothing to export."], Done None) /\
  convert_file opaque_repr "in.csv" DotCsv
    {| src_exists := true; src_json := JsonInvalid;
       src_csv := Parsed [["a"; "b"]; []] |}
    "out.json" DotJson true None "," false
  = ([], Done (Some (WroteJson "out.json" false (VList [])))).
Proof.
  exact (convert_csv_without_data_rows opaque_repr "in.csv" "out.csv"
           "out.json"
           {| src_exists := true; src_json := JsonInvalid;
              src_csv := Parsed [["a"; "b"]; []] |}
           [["a"; "b"]; []] true None "," false eq_refl eq_refl eq_refl).
Defined.

(** X14.  [convert_file] passes its [headers] to the export as well: for a
    CSV file that holds exactly one non-blank row, at least as wide as
    the non-empty [headers], the import collapses to a single mapping and
    the export to CSV under the same headers raises [AttributeError]. *)
Theorem convert_single_row_csv_with_headers_raises
    (container_repr : pyval -> string) (import_path export_path : string)
    (f : source_file) (rows : list (list string)) (row : list string)
    (fieldnames : list key) (delimiter : ascii) (trim_long_string : bool) :
  src_exists f = true ->
  src_csv f = Parsed rows ->
  filter nonblank rows = [row] ->
  fieldnames <> [] ->
  (List.length fieldnames <= List.length row)%nat ->
  convert_file container_repr import_path DotCsv f export_path DotCsv true
    (Some fieldnames) delimiter trim_long_string
  = ([], Raised AttributeError).
Proof.
  intros Hex Hcsv Hrows Hne Hwide.
  unfold convert_file, import_data_from_disk. rewrite Hex, Hcsv.
  rewrite import_csv_parsed. cbn [DictReader]. rewrite Hrows.
  cbn [map forallb]. rewrite (dictreader_row_lowerable _ _ Hwide).
  cbn [andb collapse option_map].
  set (record := map coerce_item (dictreader_row fieldnames row)).
  assert (Hrecord : record <> []).
  { destruct fieldnames as [|k ks]; [contradiction |].
    destruct (dictreader_row_has_headers (k :: ks) row k Hwide
                (or_introl eq_refl)) as [x Hx].
    unfold record. destruct (dictreader_row (k :: ks) row);
      [discriminate | discriminate]. }
  assert (Hnames : map key_val fieldnames <> [])
    by (destruct fieldnames; [contradiction | discriminate]).
  pose proof (export_iterates_over_keys container_repr export_path delimiter
                trim_long_string record (map key_val fieldnames) fieldnames
                Hrecord Hnames (hash_all_key_val fieldnames)) as Hexport.
  unfold export_data_to_disk, export_csv_into.
  replace (negb (truthy (VDict record))) with false
    by (destruct record; [contradiction | reflexivity]).
  unfold shaped_table at 1. rewrite Hexport. reflexivity.
Qed.

Lemma convert_single_row_csv_with_headers_raises_witness :
  convert_file opaque_repr "in.csv" DotCsv
    {| src_exists := true; src_json := JsonInvalid;
       src_csv := Parsed [["7"; "ann"]] |}
    "out.csv" DotCsv true (Some [KStr "id"; KStr "name"]) "," false
  = ([], Raised AttributeError).
Proof.
  assert (Hne : [KStr "id"; KStr "name"] <> []) by discriminate.
  exact (convert_single_row_csv_with_headers_raises opaque_repr "in.csv"
           "out.csv"
           {| src_exists := true; src_json := JsonInvalid;
              src_csv := Parsed [["7"; "ann"]] |}
           [["7"; "ann"]] ["7"; "ann"] [KStr "id"; KStr "name"] "," false
           eq_refl eq_refl eq_refl Hne (le_n 2)).
Defined.
